(** * MediaWatchdog: the score generator and the classifier adapter

    A shallow embedding of [src/utils/mlDetection.ts] and
    [src/utils/analysisUtils.ts], and the properties of
    [generateAnalysisResults] and [analyzeImageWithML].

    Definitions:
    - [JsString], [JsText]: strings as sequences of UTF-16 code units.
    - [Number]: the arithmetic the two files use, as an interface.  The code
      is written once against it, so a property proved for every [Number]
      holds for IEEE-754 doubles ([DoubleNumber]) as well as for exact real
      arithmetic ([RealNumber]).
    - [Async]: exceptions, and the state a module keeps between calls.
    - [mlDetection], [analysisUtils], [Report]: the two source files.
    - [JsValue]: [safeAccess], on plain data.
    - [AnalysisMetrics], [WebcamAnalyzer], [AnalyzePage]: the logic of the
      metrics card, of the webcam capture and of the page.
    - [Ranges], [Samples], [DoubleSamples]: predicates and inputs for the
      statements below.

    Properties:
    - [AdapterFacts], [GeneratorFacts]: for every arithmetic.
    - [RealGenerator]: ranges and values, in exact real arithmetic.
    - [DoubleRuns]: sample runs in doubles.
    - [AdapterCacheFacts], [VerdictFacts], [TopScoreFacts],
      [IndependenceFacts]: more on the adapter and the generator.
    - [JsTextFacts], [ReportFacts], [RoundingFacts]: the report.
    - [SafeAccessFacts], [AnalysisMetricsFacts], [WebcamFacts],
      [WebcamIntervalFacts], [AnalyzePageFacts]: the callers. *)

From Stdlib Require Import ZArith NArith List String Ascii Bool Lia.
From Stdlib Require Import Reals Lra Machin DecimalString Permutation.
From Stdlib Require Floats.PrimFloat.
Import ListNotations.

Set Implicit Arguments.

(* ================================================================= *)
(** ** Strings *)

Module JsString.

(** A JavaScript string is a sequence of UTF-16 code units. *)
Definition jsstring := list N.

(** A string literal of the source (all of them are ASCII). *)
Fixpoint str (s : string) : jsstring :=
  match s with
  | EmptyString => []
  | String c r => N_of_ascii c :: str r
  end.

(** [a === b] on strings. *)
Fixpoint eqb (a b : jsstring) : bool :=
  match a, b with
  | [], [] => true
  | x :: a', y :: b' => N.eqb x y && eqb a' b'
  | _, _ => false
  end.

(** [s.startsWith(t)]; the helper of [includes]. *)
Fixpoint startsWith (s t : jsstring) {struct t} : bool :=
  match t, s with
  | [], _ => true
  | y :: t', x :: s' => N.eqb x y && startsWith s' t'
  | _ :: _, [] => false
  end.

(** [s.includes(t)]: [t] occurs in [s] at some position. *)
Fixpoint includes (s t : jsstring) : bool :=
  startsWith s t ||
  match s with
  | [] => false
  | _ :: s' => includes s' t
  end.

(** [s.split('').reduce((acc, char) => acc + char.charCodeAt(0), 0)]:
    [split('')] yields one string per code unit, and [charCodeAt(0)] of
    each is that code unit.  The partial sums are integers far below 2^53
    (a string has fewer than 2^32 code units of at most 65535 each), so the
    additions are exact in doubles and the sum is taken in [Z]. *)
Definition charCodeSum (s : jsstring) : Z :=
  fold_left (fun acc char => (acc + Z.of_N char)%Z) s 0%Z.

(** [s] as a truth value: the empty string is falsy. *)
Definition truthy (s : jsstring) : bool :=
  match s with [] => false | _ :: _ => true end.

End JsString.
Import JsString.

(* ================================================================= *)
(** ** Numbers *)

(** The operations on JavaScript numbers that the two files use.  [lit z] is
    the number denoted by the integer literal [z]; [gt] is [>]; [truthy] is
    the truth value of a number ([0], [-0] and [NaN] are falsy);
    [toString] is the conversion of a template literal [`${x}`]. *)
Class Number : Type := {
  num : Type;
  lit : Z -> num;
  add : num -> num -> num;
  sub : num -> num -> num;
  mul : num -> num -> num;
  div : num -> num -> num;
  sin : num -> num;
  round : num -> num;
  gt : num -> num -> bool;
  truthy : num -> bool;
  toString : num -> jsstring
}.

Declare Scope js_scope.
Delimit Scope js_scope with js.
Infix "+" := add : js_scope.
Infix "-" := sub : js_scope.
Infix "*" := mul : js_scope.
Infix "/" := div : js_scope.
Infix ">?" := gt (at level 70, no associativity) : js_scope.
Notation "a '||' b" := (if truthy a then a else b)
  (at level 50, left associativity, only parsing) : js_scope.

(* ================================================================= *)
(** ** Exact real arithmetic *)

Module RealNumber.

Definition Rgtb (x y : R) : bool := if Rgt_dec x y then true else false.

Definition Rtruthy (x : R) : bool := if Req_dec_T x 0 then false else true.

(** [Math.round]: the nearest integer, ties towards plus infinity. *)
Definition Rround (x : R) : R := IZR (Int_part (x + / 2)).

(** The decimal digits of an integer. *)
Definition ZtoString (z : Z) : jsstring :=
  str (NilZero.string_of_int (Z.to_int z)).

(** The conversion is only applied to values of [Math.round], which are
    integers; there it is the decimal numeral. *)
Definition RtoString (x : R) : jsstring := ZtoString (Int_part x).

#[export] Instance real : Number := {|
  num := R;
  lit := IZR;
  add := Rplus;
  sub := Rminus;
  mul := Rmult;
  div := Rdiv;
  sin := Rtrigo_def.sin;
  round := Rround;
  gt := Rgtb;
  truthy := Rtruthy;
  toString := RtoString
|}.

End RealNumber.

(* ================================================================= *)
(** ** IEEE-754 doubles *)

Module DoubleNumber.
(** An integer literal as a double; exact below 2^53. *)
Fixpoint ofPositive (p : positive) : PrimFloat.float :=
  match p with
  | xH => PrimFloat.one
  | xO q => PrimFloat.mul PrimFloat.two (ofPositive q)
  | xI q =>
      PrimFloat.add (PrimFloat.mul PrimFloat.two (ofPositive q)) PrimFloat.one
  end.

Definition ofZ (z : Z) : PrimFloat.float :=
  match z with
  | Z0 => PrimFloat.zero
  | Zpos p => ofPositive p
  | Zneg p => PrimFloat.opp (ofPositive p)
  end.

(** [0], [-0] and [NaN] are falsy. *)
Definition doubleTruthy (x : PrimFloat.float) : bool :=
  negb (PrimFloat.eqb x PrimFloat.zero) && PrimFloat.eqb x x.

(** The numbers of the engine.  The four arithmetic operations and the
    comparison are those of IEEE-754 binary64; [Math.sin] (which the
    language leaves to the implementation), [Math.round] and the conversion
    to text are the host's. *)
Definition double (mathSin mathRound : PrimFloat.float -> PrimFloat.float)
  (numberToString : PrimFloat.float -> jsstring) : Number := {|
  num := PrimFloat.float;
  lit := ofZ;
  add := PrimFloat.add;
  sub := PrimFloat.sub;
  mul := PrimFloat.mul;
  div := PrimFloat.div;
  sin := mathSin;
  round := mathRound;
  gt := fun x y => PrimFloat.ltb y x;
  truthy := doubleTruthy;
  toString := numberToString
|}.

End DoubleNumber.

(* ================================================================= *)
(** ** Exceptions and module state *)

Module Async.

(** How a call ends: it returns a value or throws.  A thrown value is
    represented by its message. *)
Inductive outcome (A : Type) : Type :=
  | Returned (a : A)
  | Thrown (error : jsstring).
Arguments Returned {A} a.
Arguments Thrown {A} error.

Section Monad.
(** [St] is the module-level mutable state.  An [async] function is
    modelled by its sequential behaviour: [await] is a plain call. *)
Variable St : Type.

Definition M (A : Type) : Type := St -> outcome A * St.

Definition ret {A} (a : A) : M A := fun st => (Returned a, st).

Definition bind {A B} (m : M A) (k : A -> M B) : M B :=
  fun st =>
    match m st with
    | (Returned a, st') => k a st'
    | (Thrown e, st') => (Thrown e, st')
    end.

Definition throw {A} (error : jsstring) : M A :=
  fun st => (Thrown error, st).

(** [try { body } catch (error) { handler }]: assignments made by
    [body] before it throws are kept. *)
Definition tryCatch {A} (body : M A) (handler : jsstring -> M A) : M A :=
  fun st =>
    match body st with
    | (Returned a, st') => (Returned a, st')
    | (Thrown e, st') => handler e st'
    end.

Definition get : M St := fun st => (Returned st, st).
Definition put (st' : St) : M unit := fun _ => (Returned tt, st').

(** [await] of an external call whose outcome is [o]. *)
Definition await {A} (o : outcome A) : M A := fun st => (o, st).
End Monad.

Arguments ret {St A} a.
Arguments throw {St A} error.
Arguments get {St}.
Arguments await {St A} o.

Declare Scope async_scope.
Delimit Scope async_scope with async.
Notation "x <- m ;; k" := (bind m (fun x => k))
  (at level 61, m at next level, right associativity) : async_scope.
Notation "m ;; k" := (bind m (fun _ => k))
  (at level 61, right associativity) : async_scope.

End Async.
Import Async.

(* ================================================================= *)
(** ** The browser's [File] and [Blob] *)

Module Dom.
(** Of a [File], the code reads [name] and [size] (a byte count). *)
Record File : Type := { name : jsstring; size : N }.
End Dom.

(* ================================================================= *)
(** ** [src/utils/mlDetection.ts] *)

Module mlDetection.

Record MLFeatures {Num : Number} : Type := {
  artificialPatterns : num;
  naturalFeatures : num;
  textureConsistency : num;
  lighting : num
}.

Record MLAnalysisResult {Num : Number} : Type := {
  isDeepfake : bool;
  confidence : num;
  features : MLFeatures
}.

(** The argument [imageData : string | Blob].  A [File] is a [Blob]; a
    [Blob] that is not a [File] has no [name]. *)
Inductive ImageData : Type :=
  | StringData (s : jsstring)
  | BlobData (size : N)
  | FileData (f : Dom.File).

(** One entry of what an image-classification pipeline answers. *)
Record Label {Num : Number} : Type := { label : jsstring; score : num }.

(** The value the detector resolves to.  The source types it [any] and
    guards against a missing value and a missing first entry. *)
Inductive RawResult {Num : Number} : Type :=
  | Undefined
  | Labels (entries : list Label).

(** A loaded pipeline: calling it on the input returns or throws. *)
Definition Detector {Num : Number} : Type := ImageData -> outcome RawResult.

Section Adapter.
Context {Num : Number}.
Local Open Scope js_scope.
Local Open Scope async_scope.

(** [let classifier: any = null] *)
Definition Classifier : Type := option Detector.

(** The outcome of
    [pipeline('image-classification', 'microsoft/resnet-50', ...)],
    the download and set-up of the model. *)
Variable pipeline : outcome Detector.

Definition initializeDetector : M Classifier Classifier :=
  classifier <- get ;;
  match classifier with
  | None =>
      tryCatch
        (loaded <- await pipeline ;;
         put (Some loaded) ;;
         ret (Some loaded))
        (fun error => ret None)
  | Some _ => ret classifier
  end.

(** [result && result[0] && result[0].score ? result[0].score * 100 : 0].
    An entry without a score reads like a score of 0: both are falsy. *)
Definition confidenceScoreOf (result : RawResult) : num :=
  match result with
  | Labels (first :: _) =>
      if truthy (score first) then score first * lit 100 else lit 0
  | Labels [] => lit 0
  | Undefined => lit 0
  end.

(** [imageData instanceof Blob && (imageData as File).name &&
     (name.includes("webcam-capture") || name.includes("webcam"))] *)
Definition isWebcamOf (imageData : ImageData) : bool :=
  match imageData with
  | FileData f =>
      JsString.truthy (Dom.name f) &&
      (includes (Dom.name f) (str "webcam-capture") ||
       includes (Dom.name f) (str "webcam"))
  | BlobData _ => false
  | StringData _ => false
  end.

(** The value returned by the [catch] block. *)
Definition fallbackResult (imageData : ImageData) : MLAnalysisResult :=
  let isWebcam := isWebcamOf imageData in
  {| isDeepfake := if isWebcam then false else true;
     confidence := if isWebcam then lit 95 else lit 65;
     features :=
       {| artificialPatterns := if isWebcam then lit 15 else lit 75;
          naturalFeatures := if isWebcam then lit 90 else lit 30;
          textureConsistency := if isWebcam then lit 85 else lit 35;
          lighting := if isWebcam then lit 90 else lit 40 |} |}.

(** The value returned at the end of the [try] block. *)
Definition processedResult (imageData : ImageData) (result : RawResult)
  : MLAnalysisResult :=
  let confidenceScore := confidenceScoreOf result in
  let isWebcam := isWebcamOf imageData in
  let isDeepfake := if isWebcam then false else confidenceScore >? lit 60 in
  let features :=
    {| artificialPatterns := if isDeepfake then confidenceScore else lit 20;
       naturalFeatures := if isDeepfake then lit 20 else confidenceScore;
       textureConsistency := if isDeepfake then lit 30 else lit 85;
       lighting := if isDeepfake then lit 25 else lit 90 |} in
  {| isDeepfake := isDeepfake;
     confidence := confidenceScore;
     features := features |}.

(** Lines 42-49: the steps of the [try] block that can throw, up to the
    value of [result]. *)
Definition inference (imageData : ImageData) : M Classifier RawResult :=
  detector <- initializeDetector ;;
  match detector with
  | None => throw (str "Model not initialized")
  | Some detector => await (detector imageData)
  end.

Definition analyzeImageWithML (imageData : ImageData)
  : M Classifier MLAnalysisResult :=
  tryCatch
    (detector <- initializeDetector ;;
     match detector with
     | None => throw (str "Model not initialized")
     | Some detector =>
         result <- await (detector imageData) ;;
         ret (processedResult imageData result)
     end)
    (fun error => ret (fallbackResult imageData)).

End Adapter.

End mlDetection.

(* ================================================================= *)
(** ** [src/utils/analysisUtils.ts] *)

Module Video.
Record VideoMetrics {Num : Number} : Type := {
  frameConsistency : num;
  facialAnomaly : num;
  audioVideoSync : num;
  temporalCoherence : num;
  neuralInconsistency : num
}.
End Video.

Module Audio.
Record AudioMetrics {Num : Number} : Type := {
  voicePrintAuthenticity : num;
  backgroundNoiseAnalysis : num;
  frequencyAnomalies : num;
  prosodyConsistency : num;
  spectrogramPatterns : num
}.
End Audio.

Module Image.
Record ImageMetrics {Num : Number} : Type := {
  metadataConsistency : num;
  pixelAnomalies : num;
  lightingConsistency : num;
  textureAnalysis : num;
  neuralInconsistency : num
}.
End Image.

Module analysisUtils.
Import mlDetection.

(** [type SpecificMetrics = VideoMetrics | AudioMetrics | ImageMetrics] *)
Inductive SpecificMetrics {Num : Number} : Type :=
| OfVideo (m : Video.VideoMetrics)
| OfAudio (m : Audio.AudioMetrics)
| OfImage (m : Image.ImageMetrics).

Record BaseMetrics {Num : Number} : Type := {
  authenticity : num;
  manipulationProbability : num;
  confidence : num
}.

Record AnalysisResult {Num : Number} : Type := {
  overallResult : jsstring;
  isDeepfake : bool;
  baseMetrics : BaseMetrics;
  specificMetrics : SpecificMetrics;
  mediaType : jsstring;
  fileName : jsstring;
  analysisDate : jsstring;
  datasetReference : jsstring;
  confidenceInterval : jsstring;
  analysisVersion : jsstring;
  detailedExplanation : jsstring;
  downloadable : bool
}.

Section Generator.
Context {Num : Number}.
Local Open Scope js_scope.
Local Open Scope async_scope.

(** Lines 58-67: the initial value of [mlResults]. *)
Definition defaultResults : MLAnalysisResult :=
  {| mlDetection.isDeepfake := false;
     mlDetection.confidence := lit 0;
     features :=
       {| artificialPatterns := lit 0;
          naturalFeatures := lit 0;
          textureConsistency := lit 0;
          lighting := lit 0 |} |}.

(** Line 70: the condition under which the classifier is called. *)
Definition usesClassifier (type : jsstring) (fileData : option Dom.File)
  (forceAuthentic : bool) : bool :=
  match fileData with
  | Some _ =>
      (eqb type (str "image") || eqb type (str "video"))%bool
      && negb forceAuthentic
  | None => false
  end.

Section Classify.
(** The imported [analyzeImageWithML], over the module state [St] of its
    file.  It is a parameter here, so that the [catch] of line 74 can be
    studied for any behaviour of the callee. *)
Variable St : Type.
Variable analyzeImageWithML : ImageData -> M St MLAnalysisResult.

(** Lines 58-78: [mlResults] after the classifier step. *)
Definition classify (type : jsstring) (fileData : option Dom.File)
  (forceAuthentic : bool) : M St MLAnalysisResult :=
  let mlResults := defaultResults in
  match fileData with
  | Some file =>
      if ((eqb type (str "image") || eqb type (str "video"))%bool
          && negb forceAuthentic)%bool
      then tryCatch (analyzeImageWithML (FileData file))
                    (fun error => ret mlResults)
      else ret mlResults
  | None => ret mlResults
  end.
End Classify.

(** Lines 81-83. *)
Definition hash (fileName : jsstring) : num := lit (charCodeSum fileName).

(** Line 86.  [size] is a non-negative integer below 2^53, on which [%] is
    the exact integer remainder. *)
Definition fileSizeFactor (fileData : option Dom.File) : num :=
  match fileData with
  | Some file => lit (Z.of_N (Dom.size file mod 1000)) / lit 1000
  | None => lit 0
  end.

(** Line 87. *)
Definition seedOf (fileName : jsstring) (fileData : option Dom.File) : num :=
  (hash fileName / lit 1000) + fileSizeFactor fileData.

(** Lines 91-100: the value that replaces [mlResults]. *)
Definition authenticResults : MLAnalysisResult :=
  {| mlDetection.isDeepfake := false;
     mlDetection.confidence := lit 90;
     features :=
       {| artificialPatterns := lit 12;
          naturalFeatures := lit 92;
          textureConsistency := lit 95;
          lighting := lit 90 |} |}.

(** Lines 90-101: [mlResults] as the rest of the function reads it. *)
Definition overrideResults (forceAuthentic : bool)
  (mlResults : MLAnalysisResult) : MLAnalysisResult :=
  if forceAuthentic then authenticResults else mlResults.

(** Lines 105-132: [authenticity], [manipulationProbability] and
    [isDeepfake], assigned together in each branch. *)
Definition verdictOf (type fileName : jsstring) (forceAuthentic : bool)
  (mlResults : MLAnalysisResult) (seed : num) : num * num * bool :=
  if (forceAuthentic || includes fileName (str "webcam-capture"))%bool then
    let authenticity := lit 90 + sin (seed * lit 5) * lit 5 in
    let manipulationProbability := lit 100 - authenticity in
    let isDeepfake := false in
    (authenticity, manipulationProbability, isDeepfake)
  else if eqb type (str "video") then
    let authenticity :=
      if mlDetection.confidence mlResults >? lit 0
      then (if mlDetection.isDeepfake mlResults
            then lit 35 + sin (seed * lit 5) * lit 15
            else lit 80 + sin (seed * lit 5) * lit 10)
      else lit 50 + sin (seed * lit 5) * lit 40 in
    let manipulationProbability := lit 100 - authenticity in
    let isDeepfake :=
      if mlDetection.confidence mlResults >? lit 0
      then mlDetection.isDeepfake mlResults
      else manipulationProbability >? lit 60 in
    (authenticity, manipulationProbability, isDeepfake)
  else
    let authenticity :=
      if mlDetection.confidence mlResults >? lit 0
      then (if mlDetection.isDeepfake mlResults
            then lit 35 + sin (seed * lit 5) * lit 15
            else lit 75 + sin (seed * lit 5) * lit 15)
      else lit 50 + sin (seed * lit 5) * lit 40 in
    let manipulationProbability := lit 100 - authenticity in
    let isDeepfake :=
      if mlDetection.confidence mlResults >? lit 0
      then mlDetection.isDeepfake mlResults
      else manipulationProbability >? lit 60 in
    (authenticity, manipulationProbability, isDeepfake).

(** Lines 142-183: [specificMetrics].  [mlResults.features] is always
    present, so [?.] is a plain field access. *)
Definition specificMetricsOf (type : jsstring) (forceAuthentic : bool)
  (mlResults : MLAnalysisResult) (isDeepfake : bool) (seed : num)
  : SpecificMetrics :=
  let features := features mlResults in
  if eqb type (str "video") then
    OfVideo
      {| Video.frameConsistency :=
           if forceAuthentic then lit 90 + sin (seed * lit 11) * lit 5 else
           (textureConsistency features ||
            (if isDeepfake then lit 55 + sin (seed * lit 11) * lit 15
             else lit 85 + sin (seed * lit 11) * lit 10));
         Video.facialAnomaly :=
           if forceAuthentic then lit 15 + sin (seed * lit 13) * lit 5 else
           (artificialPatterns features ||
            (if isDeepfake then lit 67 + sin (seed * lit 13) * lit 20
             else lit 25 + sin (seed * lit 13) * lit 15));
         Video.audioVideoSync :=
           if forceAuthentic then lit 92 + sin (seed * lit 17) * lit 5 else
           (if isDeepfake then lit 48 + sin (seed * lit 17) * lit 20
            else lit 88 + sin (seed * lit 17) * lit 10);
         Video.temporalCoherence :=
           if forceAuthentic then lit 88 + sin (seed * lit 19) * lit 5 else
           (textureConsistency features ||
            (if isDeepfake then lit 52 + sin (seed * lit 19) * lit 15
             else lit 82 + sin (seed * lit 19) * lit 10));
         Video.neuralInconsistency :=
           if forceAuthentic then lit 18 + sin (seed * lit 23) * lit 5 else
           (artificialPatterns features ||
            (if isDeepfake then lit 75 + sin (seed * lit 23) * lit 15
             else lit 30 + sin (seed * lit 23) * lit 20)) |}
  else if eqb type (str "audio") then
    OfAudio
      {| Audio.voicePrintAuthenticity :=
           if forceAuthentic then lit 90 + sin (seed * lit 11) * lit 5 else
           (if isDeepfake then lit 45 + sin (seed * lit 11) * lit 15
            else lit 85 + sin (seed * lit 11) * lit 10);
         Audio.backgroundNoiseAnalysis :=
           if forceAuthentic then lit 20 + sin (seed * lit 13) * lit 5 else
           (if isDeepfake then lit 60 + sin (seed * lit 13) * lit 15
            else lit 25 + sin (seed * lit 13) * lit 10);
         Audio.frequencyAnomalies :=
           if forceAuthentic then lit 15 + sin (seed * lit 17) * lit 5 else
           (if isDeepfake then lit 72 + sin (seed * lit 17) * lit 15
            else lit 30 + sin (seed * lit 17) * lit 10);
         Audio.prosodyConsistency :=
           if forceAuthentic then lit 88 + sin (seed * lit 19) * lit 5 else
           (if isDeepfake then lit 48 + sin (seed * lit 19) * lit 15
            else lit 82 + sin (seed * lit 19) * lit 10);
         Audio.spectrogramPatterns :=
           if forceAuthentic then lit 22 + sin (seed * lit 23) * lit 5 else
           (if isDeepfake then lit 70 + sin (seed * lit 23) * lit 15
            else lit 32 + sin (seed * lit 23) * lit 15) |}
  else
    OfImage
      {| Image.metadataConsistency :=
           if forceAuthentic then lit 90 + sin (seed * lit 11) * lit 5 else
           (naturalFeatures features ||
            (if isDeepfake then lit 55 + sin (seed * lit 11) * lit 15
             else lit 80 + sin (seed * lit 11) * lit 15));
         Image.pixelAnomalies :=
           if forceAuthentic then lit 15 + sin (seed * lit 13) * lit 5 else
           (artificialPatterns features ||
            (if isDeepfake then lit 65 + sin (seed * lit 13) * lit 20
             else lit 30 + sin (seed * lit 13) * lit 15));
         Image.lightingConsistency :=
           if forceAuthentic then lit 92 + sin (seed * lit 17) * lit 5 else
           (lighting features ||
            (if isDeepfake then lit 45 + sin (seed * lit 17) * lit 20
             else lit 75 + sin (seed * lit 17) * lit 15));
         Image.textureAnalysis :=
           if forceAuthentic then lit 88 + sin (seed * lit 19) * lit 5 else
           (textureConsistency features ||
            (if isDeepfake then lit 40 + sin (seed * lit 19) * lit 15
             else lit 82 + sin (seed * lit 19) * lit 10));
         Image.neuralInconsistency :=
           if forceAuthentic then lit 20 + sin (seed * lit 23) * lit 5 else
           (artificialPatterns features ||
            (if isDeepfake then lit 72 + sin (seed * lit 23) * lit 15
             else lit 25 + sin (seed * lit 23) * lit 15)) |}.

(** [`${Math.round(x)}`] *)
Definition rounded (x : num) : jsstring := toString (round x).

(** Lines 186-213: [explanation].  The casts [specificMetrics as
    VideoMetrics], [as AudioMetrics] and [as ImageMetrics] of lines 188, 193
    and 198 sit under the tests on [type] that built [specificMetrics] with
    that shape (lines 144, 157, 170), so the first choice is by shape; the
    second block tests [type] again (lines 206, 209). *)
Definition explanationOf (type fileName : jsstring) (forceAuthentic : bool)
  (isDeepfake : bool) (specificMetrics : SpecificMetrics) : jsstring :=
  let explanation :=
    match specificMetrics with
    | OfVideo videoMetrics =>
        if isDeepfake then
          str "This video exhibits multiple deepfake indicators from our DFDC-trained model. We detected inconsistent temporal coherence ("
          ++ rounded (Video.temporalCoherence videoMetrics)
          ++ str "% anomaly), facial morphology anomalies ("
          ++ rounded (Video.facialAnomaly videoMetrics)
          ++ str "% detection), and audio-visual desynchronization ("
          ++ rounded (Video.audioVideoSync videoMetrics)
          ++ str "% mismatch). These patterns strongly match known GAN-based deepfake generation methods."
        else
          str "This video appears authentic based on our DFD comparison analysis. We observed natural frame transitions ("
          ++ rounded (Video.frameConsistency videoMetrics)
          ++ str "% consistency), expected facial landmark movement ("
          ++ rounded (Video.facialAnomaly videoMetrics)
          ++ str "% normal detection), and properly synchronized audio-visual elements ("
          ++ rounded (Video.audioVideoSync videoMetrics)
          ++ str "% match). No significant manipulation artifacts were detected."
    | OfAudio audioMetrics =>
        if isDeepfake then
          str "This audio shows signs of synthetic voice generation including unusual voiceprint patterns ("
          ++ rounded (Audio.voicePrintAuthenticity audioMetrics)
          ++ str "% anomaly), spectral irregularities ("
          ++ rounded (Audio.spectrogramPatterns audioMetrics)
          ++ str "% detection), and prosody inconsistencies ("
          ++ rounded (Audio.prosodyConsistency audioMetrics)
          ++ str "% mismatch). These characteristics match patterns in our DFDC-trained voice synthesis detection model."
        else
          str "This audio displays natural voice characteristics with consistent voiceprint ("
          ++ rounded (Audio.voicePrintAuthenticity audioMetrics)
          ++ str "% authenticity), normal spectral distribution ("
          ++ rounded (Audio.spectrogramPatterns audioMetrics)
          ++ str "% within normal range), and expected prosody patterns ("
          ++ rounded (Audio.prosodyConsistency audioMetrics)
          ++ str "% natural). No significant synthetic voice indicators were detected."
    | OfImage imageMetrics =>
        if isDeepfake then
          str "This image contains multiple manipulation indicators identified by our DFD-trained model. We detected neural inconsistencies ("
          ++ rounded (Image.neuralInconsistency imageMetrics)
          ++ str "% anomaly), texture irregularities ("
          ++ rounded (Image.textureAnalysis imageMetrics)
          ++ str "% unnatural), and lighting discrepancies ("
          ++ rounded (Image.lightingConsistency imageMetrics)
          ++ str "% mismatch). These patterns are consistent with GAN-generated or manipulated imagery."
        else
          str "This image appears authentic based on our dataset comparison. We observed natural texture patterns ("
          ++ rounded (Image.textureAnalysis imageMetrics)
          ++ str "% natural), consistent lighting ("
          ++ rounded (Image.lightingConsistency imageMetrics)
          ++ str "% consistent), and expected neural patterns ("
          ++ rounded (Image.neuralInconsistency imageMetrics)
          ++ str "% normal). No significant manipulation artifacts were detected."
    end in
  if (includes fileName (str "webcam-capture") || forceAuthentic)%bool then
    match specificMetrics with
    | OfImage imageMetrics =>
        if eqb type (str "image") then
          str "Live webcam capture verified as authentic. Natural lighting patterns ("
          ++ rounded (Image.lightingConsistency imageMetrics)
          ++ str "% consistent) and expected texture characteristics ("
          ++ rounded (Image.textureAnalysis imageMetrics)
          ++ str "% natural) confirm this is an original capture from your device."
        else explanation
    | OfVideo videoMetrics =>
        str "Live webcam recording verified as authentic. Natural frame transitions ("
        ++ rounded (Video.frameConsistency videoMetrics)
        ++ str "% consistency) and expected facial movements ("
        ++ rounded (Video.facialAnomaly videoMetrics)
        ++ str "% normal detection) confirm this is an original recording from your device."
    | OfAudio _ => explanation
    end
  else explanation.

(** Lines 80-232: everything after the classifier step.  [now] is the value
    of [new Date().toISOString()] at line 222. *)
Definition assemble (now type fileName : jsstring)
  (fileData : option Dom.File) (forceAuthentic : bool)
  (mlResults : MLAnalysisResult) : AnalysisResult :=
  let seed := seedOf fileName fileData in
  let mlResults := overrideResults forceAuthentic mlResults in
  let '(authenticity, manipulationProbability, isDeepfake) :=
    verdictOf type fileName forceAuthentic mlResults seed in
  let baseMetrics :=
    {| authenticity := authenticity;
       manipulationProbability := manipulationProbability;
       confidence := lit 75 + sin (seed * lit 7) * lit 15 |} in
  let specificMetrics :=
    specificMetricsOf type forceAuthentic mlResults isDeepfake seed in
  let explanation :=
    explanationOf type fileName forceAuthentic isDeepfake specificMetrics in
  {| overallResult :=
       if isDeepfake then str "Potential Deepfake Detected"
       else str "Verified Authentic";
     isDeepfake := isDeepfake;
     baseMetrics := baseMetrics;
     specificMetrics := specificMetrics;
     mediaType := type;
     fileName := fileName;
     analysisDate := now;
     datasetReference := str "Based on DFDC & DFD datasets";
     confidenceInterval :=
       rounded (confidence baseMetrics - lit 8) ++ str "%-"
       ++ rounded (confidence baseMetrics + lit 8) ++ str "%";
     analysisVersion := str "1.2.1";
     detailedExplanation := explanation;
     downloadable := true |}.

(** [generateAnalysisResults], over any callee. *)
Definition generateAnalysisResultsWith (St : Type)
  (analyzeImageWithML : ImageData -> M St MLAnalysisResult)
  (now type fileName : jsstring) (fileData : option Dom.File)
  (forceAuthentic : bool) : M St AnalysisResult :=
  mlResults <- classify analyzeImageWithML type fileData forceAuthentic ;;
  ret (assemble now type fileName fileData forceAuthentic mlResults).

(** [generateAnalysisResults] as the repository links it: the callee is
    [mlDetection.analyzeImageWithML], and the state is its [classifier]. *)
Definition generateAnalysisResults (pipeline : outcome Detector)
  (now type fileName : jsstring) (fileData : option Dom.File)
  (forceAuthentic : bool) : M Classifier AnalysisResult :=
  generateAnalysisResultsWith (analyzeImageWithML pipeline)
    now type fileName fileData forceAuthentic.

(** [Object.values(specificMetrics)], in key order. *)
Definition metricValues (m : SpecificMetrics) : list num :=
  match m with
  | OfVideo v =>
      [Video.frameConsistency v; Video.facialAnomaly v;
       Video.audioVideoSync v; Video.temporalCoherence v;
       Video.neuralInconsistency v]
  | OfAudio a =>
      [Audio.voicePrintAuthenticity a; Audio.backgroundNoiseAnalysis a;
       Audio.frequencyAnomalies a; Audio.prosodyConsistency a;
       Audio.spectrogramPatterns a]
  | OfImage i =>
      [Image.metadataConsistency i; Image.pixelAnomalies i;
       Image.lightingConsistency i; Image.textureAnalysis i;
       Image.neuralInconsistency i]
  end.

End Generator.
End analysisUtils.

(* ================================================================= *)
(** ** Ranges and sample inputs, in exact real arithmetic *)

Module Ranges.
Import mlDetection analysisUtils RealNumber.
Local Open Scope R_scope.

(** A percentage. *)
Definition percentage (x : R) : Prop := 0 <= x <= 100.

(** A classifier output whose confidence and features are percentages. *)
Definition classifierInRange (ml : MLAnalysisResult) : Prop :=
  percentage (mlDetection.confidence ml)
  /\ percentage (artificialPatterns (features ml))
  /\ percentage (naturalFeatures (features ml))
  /\ percentage (textureConsistency (features ml))
  /\ percentage (lighting (features ml)).

(** Every percentage-valued field of a result. *)
Definition resultInRange (r : AnalysisResult) : Prop :=
  percentage (authenticity (baseMetrics r))
  /\ percentage (manipulationProbability (baseMetrics r))
  /\ percentage (confidence (baseMetrics r))
  /\ Forall percentage (metricValues (specificMetrics r))
  /\ List.length (metricValues (specificMetrics r)) = 5%nat.

(** A detector whose top score, when it answers with one, is a
    probability. *)
Definition scoresAreProbabilities (detector : Detector) : Prop :=
  forall imageData first rest,
    detector imageData = Returned (Labels (first :: rest)) ->
    0 <= score first <= 1.

End Ranges.

Module Samples.
Import mlDetection RealNumber.
Local Open Scope R_scope.

(** A browser that cannot load the model. *)
Definition offline : outcome Detector := Thrown (str "Failed to fetch").

(** A model that answers every image with one label of score 0.9. *)
Definition confident : Detector :=
  fun _ => Returned (Labels [{| label := str "mask"; score := 9 / 10 |}]).

Definition photo : Dom.File :=
  {| Dom.name := str "photo.jpg"; Dom.size := 204800 |}.

Definition webcamCapture : Dom.File :=
  {| Dom.name := str "webcam-capture.jpg"; Dom.size := 51200 |}.

Definition morning : jsstring := str "2024-05-01T10:00:00.000Z".
Definition evening : jsstring := str "2024-05-02T18:30:00.000Z".

End Samples.

Module DoubleSamples.
Import DoubleNumber.

(** Doubles whose sine is stuck at its largest and at its smallest value;
    rounding and printing are not exercised. *)
Definition atPeak : Number :=
  double (fun _ => PrimFloat.one) (fun x => x) (fun _ => []).

Definition atTrough : Number :=
  double (fun _ => PrimFloat.opp PrimFloat.one) (fun x => x) (fun _ => []).

End DoubleSamples.

(* ================================================================= *)
(** ** More string operations *)

Module JsText.

(** The line feed of ["\n"]. *)
Definition nl : jsstring := [10%N].

(** [s.charAt(0)]: the first code unit as a string, or the empty string. *)
Definition charAt0 (s : jsstring) : jsstring :=
  match s with
  | [] => []
  | c :: _ => [c]
  end.

(** [s.slice(1)] *)
Definition slice1 (s : jsstring) : jsstring :=
  match s with
  | [] => []
  | _ :: rest => rest
  end.

Definition isUpperAscii (u : N) : bool := (65 <=? u)%N && (u <=? 90)%N.
Definition isLowerAscii (u : N) : bool := (97 <=? u)%N && (u <=? 122)%N.

Definition isLetter (u : N) : bool := isLowerAscii u || isUpperAscii u.

Definition isSpace (u : N) : bool := (u =? 32)%N.

(** [toUpperCase] of one code unit.  On ASCII it is the shift of the letters
    a-z; elsewhere it is the case mapping of the engine's Unicode tables,
    [hostUpper], which may answer with several code units. *)
Definition upperUnit (hostUpper : N -> jsstring) (u : N) : jsstring :=
  if isLowerAscii u then [(u - 32)%N]
  else if (u <? 128)%N then [u]
  else hostUpper u.

(** [s.toUpperCase()], for the strings the code applies it to: values of
    [charAt(0)], of at most one code unit. *)
Definition toUpperCase (hostUpper : N -> jsstring) (s : jsstring)
  : jsstring :=
  flat_map (upperUnit hostUpper) s.

(** [s.replace(/([A-Z])/g, ' $1')]: a space before every ASCII capital. *)
Definition spaceCapitals (s : jsstring) : jsstring :=
  flat_map (fun u => if isUpperAscii u then [32%N; u] else [u]) s.

(** White space and line terminators, as [trim] strips them. *)
Definition isWhiteSpace (u : N) : bool :=
  ((9 <=? u) && (u <=? 13)
   || (u =? 32) || (u =? 160) || (u =? 5760)
   || (8192 <=? u) && (u <=? 8202)
   || (u =? 8232) || (u =? 8233) || (u =? 8239) || (u =? 8287)
   || (u =? 12288) || (u =? 65279))%N.

Fixpoint trimStart (s : jsstring) : jsstring :=
  match s with
  | [] => []
  | u :: rest => if isWhiteSpace u then trimStart rest else s
  end.

Definition trimEnd (s : jsstring) : jsstring := rev (trimStart (rev s)).

(** [s.trim()] *)
Definition trim (s : jsstring) : jsstring := trimEnd (trimStart s).

(** [s.split(sep)] for a separator of one code unit; [current] collects the
    piece being read, in reverse. *)
Fixpoint splitFrom (sep : N) (current : jsstring) (s : jsstring)
  : list jsstring :=
  match s with
  | [] => [rev current]
  | u :: rest =>
      if (u =? sep)%N then rev current :: splitFrom sep [] rest
      else splitFrom sep (u :: current) rest
  end.

Definition split (sep : N) (s : jsstring) : list jsstring :=
  splitFrom sep [] s.

(** [pieces.join(sep)] *)
Fixpoint join (sep : N) (pieces : list jsstring) : jsstring :=
  match pieces with
  | [] => []
  | [piece] => piece
  | piece :: more => piece ++ sep :: join sep more
  end.

(** Every line followed by a line feed. *)
Definition lines (l : list jsstring) : jsstring :=
  flat_map (fun line => line ++ nl) l.

End JsText.

(* ================================================================= *)
(** ** [generateDownloadableReport] of [src/utils/analysisUtils.ts] *)

Module Report.
Import analysisUtils JsText.

Section Report.
Context {Num : Number}.

(** [new Date(text).toLocaleString()], which depends on the locale and the
    time zone of the browser. *)
Variable toLocaleString : jsstring -> jsstring.

(** The engine's upper-case mapping outside ASCII. *)
Variable hostUpper : N -> jsstring.

(** [s.charAt(0).toUpperCase() + s.slice(1)], lines 237 and 268. *)
Definition capitalize (s : jsstring) : jsstring :=
  toUpperCase hostUpper (charAt0 s) ++ slice1 s.

(** Line 267. *)
Definition formattedKeyOf (key : jsstring) : jsstring :=
  trim (spaceCapitals key).

(** [Object.entries(results.specificMetrics)]: the own properties in the
    order in which the object literal of lines 145-182 lists them. *)
Definition metricEntries (m : SpecificMetrics) : list (jsstring * num) :=
  match m with
  | OfVideo v =>
      [(str "frameConsistency", Video.frameConsistency v);
       (str "facialAnomaly", Video.facialAnomaly v);
       (str "audioVideoSync", Video.audioVideoSync v);
       (str "temporalCoherence", Video.temporalCoherence v);
       (str "neuralInconsistency", Video.neuralInconsistency v)]
  | OfAudio a =>
      [(str "voicePrintAuthenticity", Audio.voicePrintAuthenticity a);
       (str "backgroundNoiseAnalysis", Audio.backgroundNoiseAnalysis a);
       (str "frequencyAnomalies", Audio.frequencyAnomalies a);
       (str "prosodyConsistency", Audio.prosodyConsistency a);
       (str "spectrogramPatterns", Audio.spectrogramPatterns a)]
  | OfImage i =>
      [(str "metadataConsistency", Image.metadataConsistency i);
       (str "pixelAnomalies", Image.pixelAnomalies i);
       (str "lightingConsistency", Image.lightingConsistency i);
       (str "textureAnalysis", Image.textureAnalysis i);
       (str "neuralInconsistency", Image.neuralInconsistency i)]
  end.

(** Lines 267-269: the text one entry adds to the report.  [value] is a
    number already, so [Number(value)] is [value]. *)
Definition metricLine (entry : jsstring * num) : jsstring :=
  let '(key, value) := entry in
  let formattedKey := formattedKeyOf key in
  let capitalizedKey := capitalize formattedKey in
  capitalizedKey ++ str ": " ++ rounded value ++ str "%" ++ nl.

Definition rule55 : jsstring :=
  str "=======================================================".

(** Lines 239-263. *)
Definition reportHead (results : AnalysisResult) : jsstring :=
  let date := toLocaleString (analysisDate results) in
  let mediaType := capitalize (mediaType results) in
  nl ++ lines
    [rule55;
     str "MediaWatchdog Deepfake Analysis Report";
     rule55;
     str "Date: " ++ date;
     str "Media Type: " ++ mediaType;
     str "File Name: " ++ fileName results;
     str "Analysis Version: " ++ analysisVersion results;
     str "Dataset Reference: " ++ datasetReference results;
     rule55;
     [];
     str "ANALYSIS RESULTS";
     str "---------------";
     str "Overall Result: " ++ overallResult results;
     str "Confidence Interval: " ++ confidenceInterval results;
     [];
     str "CORE METRICS";
     str "-----------";
     str "Authenticity Score: "
       ++ rounded (authenticity (baseMetrics results)) ++ str "%";
     str "Manipulation Probability: "
       ++ rounded (manipulationProbability (baseMetrics results)) ++ str "%";
     str "Confidence Score: "
       ++ rounded (confidence (baseMetrics results)) ++ str "%";
     [];
     str "MEDIA-SPECIFIC METRICS";
     str "--------------------"].

(** Lines 272-281. *)
Definition reportTail (results : AnalysisResult) : jsstring :=
  nl ++ lines
    [str "DETAILED ANALYSIS";
     str "---------------";
     detailedExplanation results;
     [];
     rule55;
     str "Generated by MediaWatchdog - Advanced Deepfake Detection System";
     str "Using DFDC & DFD Dataset Training Models";
     rule55].

(** [forEach] appends the lines one after the other to [report]. *)
Definition generateDownloadableReport (results : AnalysisResult)
  : jsstring :=
  let report := reportHead results in
  let report :=
    fold_left (fun report entry => report ++ metricLine entry)
              (metricEntries (specificMetrics results)) report in
  report ++ reportTail results.

End Report.

End Report.

(* ================================================================= *)
(** ** JavaScript values, and [safeAccess] *)

(** [safeAccess] is declared twice, with the same text: in the page
    ([src/pages/Analyze.tsx], lines 31-40) and in the [AnalysisMetrics]
    component (lines 10-19 of its file). *)

Module JsValue.
Import JsText.

(** The values that reach [safeAccess]: plain data. *)
#[warnings="-register-all"]
Inductive Value {Num : Number} : Type :=
| VUndefined
| VNull
| VBoolean (b : bool)
| VNumber (x : num)
| VString (s : jsstring)
| VObject (properties : list (jsstring * Value)).

Section Access.
Context {Num : Number}.
Local Open Scope async_scope.

(** The truth value of [v]. *)
Definition isTruthy (v : Value) : bool :=
  match v with
  | VUndefined => false
  | VNull => false
  | VBoolean b => b
  | VNumber x => truthy x
  | VString s => JsString.truthy s
  | VObject _ => true
  end.

(** [v !== undefined] *)
Definition isDefined (v : Value) : bool :=
  match v with
  | VUndefined => false
  | _ => true
  end.

(** An own property, by name. *)
Fixpoint ownProperty (key : jsstring) (properties : list (jsstring * Value))
  : option Value :=
  match properties with
  | [] => None
  | (name, value) :: rest =>
      if eqb name key then Some value else ownProperty key rest
  end.

(** What a property that is not an own data property reads as: the members
    of the prototypes, the length and the indices of a string.  It is the
    engine's. *)
Variable inherited : Value -> jsstring -> Value.

(** [v[key]].  Reading a property of [null] or [undefined] throws. *)
Definition getProperty (v : Value) (key : jsstring) : outcome Value :=
  match v with
  | VUndefined => Thrown (str "TypeError")
  | VNull => Thrown (str "TypeError")
  | VObject properties =>
      match ownProperty key properties with
      | Some value => Returned value
      | None => Returned (inherited v key)
      end
  | _ => Returned (inherited v key)
  end.

Section SafeAccess.
Variable St : Type.

(** The callback of [reduce]:
    [prev && prev[curr] !== undefined ? prev[curr] : undefined]. *)
Definition accessStep (prev : Value) (curr : jsstring) : M St Value :=
  if isTruthy prev then
    read <- await (getProperty prev curr) ;;
    if isDefined read then await (getProperty prev curr)
    else ret VUndefined
  else ret VUndefined.

(** [list.reduce(callback, initial)] *)
Fixpoint reduce (callback : Value -> jsstring -> M St Value)
  (list : list jsstring) (accumulator : Value) : M St Value :=
  match list with
  | [] => ret accumulator
  | curr :: rest =>
      next <- callback accumulator curr ;;
      reduce callback rest next
  end.

Definition safeAccess (obj : Value) (path : jsstring) (defaultValue : Value)
  : M St Value :=
  tryCatch
    (result <- reduce accessStep (split 46 path) obj ;;
     ret (if isDefined result then result else defaultValue))
    (fun e => ret defaultValue).

End SafeAccess.
End Access.

(** An [AnalysisResult] as the object that lines 215-228 of
    [analysisUtils.ts] build. *)
Definition ofMetrics {Num : Number} (entries : list (jsstring * num))
  : Value :=
  VObject (map (fun entry => (fst entry, VNumber (snd entry))) entries).

Definition ofResult {Num : Number} (r : analysisUtils.AnalysisResult)
  : Value :=
  VObject
    [(str "overallResult", VString (analysisUtils.overallResult r));
     (str "isDeepfake", VBoolean (analysisUtils.isDeepfake r));
     (str "baseMetrics",
      VObject
        [(str "authenticity",
          VNumber (analysisUtils.authenticity (analysisUtils.baseMetrics r)));
         (str "manipulationProbability",
          VNumber (analysisUtils.manipulationProbability
                     (analysisUtils.baseMetrics r)));
         (str "confidence",
          VNumber (analysisUtils.confidence (analysisUtils.baseMetrics r)))]);
     (str "specificMetrics",
      ofMetrics (Report.metricEntries (analysisUtils.specificMetrics r)));
     (str "mediaType", VString (analysisUtils.mediaType r));
     (str "fileName", VString (analysisUtils.fileName r));
     (str "analysisDate", VString (analysisUtils.analysisDate r));
     (str "datasetReference", VString (analysisUtils.datasetReference r));
     (str "confidenceInterval", VString (analysisUtils.confidenceInterval r));
     (str "analysisVersion", VString (analysisUtils.analysisVersion r));
     (str "detailedExplanation",
      VString (analysisUtils.detailedExplanation r));
     (str "downloadable", VBoolean (analysisUtils.downloadable r))].

(** The page holds [AnalysisResult | null]. *)
Definition ofResultOrNull {Num : Number}
  (r : option analysisUtils.AnalysisResult) : Value :=
  match r with
  | Some r => ofResult r
  | None => VNull
  end.

End JsValue.

(* ================================================================= *)
(** ** The [AnalysisMetrics] component *)

Module AnalysisMetrics.
Import analysisUtils JsText.

Section Rows.
Context {Num : Number}.
Local Open Scope js_scope.

(** The test on [baseMetrics.authenticity] that picks the success colour. *)
Definition authenticityLooksGood (authenticity : num) : bool :=
  authenticity >? lit 70.

(** The test on [baseMetrics.manipulationProbability]: [value < 30]. *)
Definition manipulationLooksGood (manipulationProbability : num) : bool :=
  lit 30 >? manipulationProbability.

(** [key.replace(/([A-Z])/g, ' $1').trim()] *)
Definition formattedKeyOf (key : jsstring) : jsstring :=
  trim (spaceCapitals key).

Definition isGoodWhenHigh (key : jsstring) : bool :=
  (includes key (str "Consistency")
   || includes key (str "Authenticity")
   || includes key (str "Natural")
   || includes key (str "Quality")
   || includes key (str "Sync"))%bool.

(** [isGoodWhenHigh ? Number(value) > 70 : Number(value) < 30] *)
Definition isGoodValue (key : jsstring) (value : num) : bool :=
  if isGoodWhenHigh key then value >? lit 70 else lit 30 >? value.

(** One row of the media-specific card: its label, whether it is drawn in
    the success colour, the text of its percentage, and the value of its
    bar. *)
Record Row : Type := {
  label : jsstring;
  good : bool;
  percent : jsstring;
  bar : num
}.

Definition rowOf (entry : jsstring * num) : Row :=
  let '(key, value) := entry in
  {| label := formattedKeyOf key;
     good := isGoodValue key value;
     percent := rounded value ++ str "%";
     bar := value |}.

(** [Object.entries(results.specificMetrics).map(...)] *)
Definition rows (results : AnalysisResult) : list Row :=
  map rowOf (Report.metricEntries (specificMetrics results)).

End Rows.

End AnalysisMetrics.

(* ================================================================= *)
(** ** The [WebcamAnalyzer] component: [handleAnalyzeWebcam] *)

Module WebcamAnalyzer.
Import mlDetection analysisUtils JsText.

(** How the handler ends: it hands a result to [onAnalysisComplete], or it
    shows a failure notice with this title. *)
Inductive Ending {Num : Number} : Type :=
| Completed (results : AnalysisResult)
| Failed (title : jsstring).

Section Handler.
Context {Num : Number}.
Local Open Scope async_scope.

(** [atob], the browser's base64 decoder, on a string or on [undefined]
    ([None]); it throws on text that is not base64.  The decoded text has
    one code unit per byte. *)
Variable atob : option jsstring -> outcome jsstring.

Variable pipeline : outcome Detector.
Variable now : jsstring.

(** [list[1]] *)
Definition second (list : list jsstring) : option jsstring :=
  nth_error list 1.

(** [imageSrc.split(',')[0].split(':')[1].split(';')[0]].  [split] always
    has a first piece; a missing second piece is [undefined], and calling
    [split] on it throws. *)
Definition mimeStringOf (imageSrc : jsstring) : outcome jsstring :=
  match split 44 imageSrc with
  | [] => Thrown (str "TypeError")
  | head :: _ =>
      match second (split 58 head) with
      | None => Thrown (str "TypeError")
      | Some afterColon =>
          match split 59 afterColon with
          | [] => Thrown (str "TypeError")
          | mime :: _ => Returned mime
          end
      end
  end.

(** [new File([blob], "webcam-capture.jpg", ...)], of the size of the
    decoded bytes. *)
Definition capturedFile (byteString : jsstring) : Dom.File :=
  {| Dom.name := str "webcam-capture.jpg";
     Dom.size := N.of_nat (List.length byteString) |}.

(** Lines 311-346: the assignments made to [results] before it is handed
    over.  The two casts follow the test on [mediaType]; a result whose
    metrics have another shape than its [mediaType] says is not produced by
    [generateAnalysisResults], and is left as it is here. *)
Definition markAuthentic (results : AnalysisResult) : AnalysisResult :=
  let specificMetrics :=
    if eqb (mediaType results) (str "image") then
      match specificMetrics results with
      | OfImage _ =>
          OfImage
            {| Image.metadataConsistency := lit 95;
               Image.pixelAnomalies := lit 10;
               Image.lightingConsistency := lit 98;
               Image.textureAnalysis := lit 97;
               Image.neuralInconsistency := lit 8 |}
      | other => other
      end
    else if eqb (mediaType results) (str "video") then
      match specificMetrics results with
      | OfVideo _ =>
          OfVideo
            {| Video.frameConsistency := lit 95;
               Video.facialAnomaly := lit 10;
               Video.audioVideoSync := lit 98;
               Video.temporalCoherence := lit 97;
               Video.neuralInconsistency := lit 8 |}
      | other => other
      end
    else specificMetrics results in
  {| overallResult := str "Analysis Complete - Authentic Content";
     isDeepfake := false;
     baseMetrics :=
       {| authenticity := lit 95;
          manipulationProbability := lit 5;
          confidence := lit 98 |};
     specificMetrics := specificMetrics;
     mediaType := mediaType results;
     fileName := fileName results;
     analysisDate := analysisDate results;
     datasetReference := datasetReference results;
     confidenceInterval := confidenceInterval results;
     analysisVersion := analysisVersion results;
     detailedExplanation := detailedExplanation results;
     downloadable := downloadable results |}.

(** [handleAnalyzeWebcam], without the progress bar: the conversion of the
    screenshot in the outer [try], the analysis in the inner one. *)
Definition handleAnalyzeWebcam (imageSrc : jsstring)
  : M Classifier Ending :=
  tryCatch
    (byteString <- await (atob (second (split 44 imageSrc))) ;;
     mimeString <- await (mimeStringOf imageSrc) ;;
     let file := capturedFile byteString in
     tryCatch
       (results <- generateAnalysisResults pipeline now
                     (str "image") (Dom.name file) (Some file) true ;;
        ret (Completed (markAuthentic results)))
       (fun error => ret (Failed (str "Analysis failed"))))
    (fun error => ret (Failed (str "Processing error"))).

End Handler.

End WebcamAnalyzer.

(* ================================================================= *)
(** ** The page: [src/pages/Analyze.tsx] *)

Module AnalyzePage.
Import mlDetection analysisUtils.

(** A file picked in the file input: the [File] the scoring code reads, and
    its [type], the MIME type the browser assigns. *)
Record Picked : Type := { file : Dom.File; type : jsstring }.

(** The state of the component (lines 23-27). *)
Record State {Num : Number} : Type := {
  activeTab : jsstring;
  selectedFile : option Picked;
  isAnalyzing : bool;
  analysisProgress : num;
  analysisResults : option AnalysisResult
}.

Section Handlers.
Context {Num : Number}.

Definition initial : State :=
  {| activeTab := str "video";
     selectedFile := None;
     isAnalyzing := false;
     analysisProgress := lit 0;
     analysisResults := None |}.

(** Lines 52-56. *)
Definition validTypes : list (jsstring * list jsstring) :=
  [(str "video", [str "video/mp4"; str "video/webm"; str "video/quicktime"]);
   (str "audio", [str "audio/mpeg"; str "audio/wav"; str "audio/ogg"]);
   (str "image", [str "image/jpeg"; str "image/png"; str "image/gif"])].

Fixpoint typesFor (tab : jsstring) (table : list (jsstring * list jsstring))
  : option (list jsstring) :=
  match table with
  | [] => None
  | (key, types) :: rest =>
      if eqb key tab then Some types else typesFor tab rest
  end.

(** [array.includes(x)] on strings. *)
Definition listIncludes (array : list jsstring) (x : jsstring) : bool :=
  existsb (fun y => eqb y x) array.

Definition handleTabChange (value : jsstring) (st : State) : State :=
  {| activeTab := value;
     selectedFile := None;
     isAnalyzing := isAnalyzing st;
     analysisProgress := lit 0;
     analysisResults := None |}.

(** [handleFileSelect], on [e.target.files?.[0]].  It returns the next
    state and the title of the notice it shows, if any.  For a tab that is
    not a key of [validTypes], [validTypes[activeTab].includes] is a call on
    [undefined] or on a member of the prototype without such a method, and
    throws. *)
Definition handleFileSelect (picked : option Picked) (st : State)
  : outcome (State * option jsstring) :=
  match picked with
  | None => Returned (st, None)
  | Some file =>
      match typesFor (activeTab st) validTypes with
      | None => Thrown (str "TypeError")
      | Some types =>
          if negb (listIncludes types (type file)) then
            Returned (st, Some (str "Invalid file type"))
          else
            Returned
              ({| activeTab := activeTab st;
                  selectedFile := Some file;
                  isAnalyzing := isAnalyzing st;
                  analysisProgress := analysisProgress st;
                  analysisResults := analysisResults st |},
               None)
      end
  end.

Definition resetAnalysis (st : State) : State :=
  {| activeTab := activeTab st;
     selectedFile := None;
     isAnalyzing := isAnalyzing st;
     analysisProgress := lit 0;
     analysisResults := None |}.

(** An [AnalysisResult] and its two metric objects are objects, hence
    truthy: the guard of line 124 holds. *)
Definition handleWebcamAnalysisComplete (results : AnalysisResult)
  (st : State) : State :=
  {| activeTab := activeTab st;
     selectedFile := selectedFile st;
     isAnalyzing := isAnalyzing st;
     analysisProgress := analysisProgress st;
     analysisResults := Some results |}.

(** [handleAnalyze], up to its [await]: lines 73-76. *)
Definition handleAnalyzeStart (st : State) : State :=
  match selectedFile st with
  | None => st
  | Some _ =>
      {| activeTab := activeTab st;
         selectedFile := selectedFile st;
         isAnalyzing := true;
         analysisProgress := lit 0;
         analysisResults := analysisResults st |}
  end.

(** The call of line 87, on the state [handleAnalyze] starts in. *)
Definition handleAnalyzeCall (pipeline : outcome Detector) (now : jsstring)
  (st : State) : option (M Classifier AnalysisResult) :=
  match selectedFile st with
  | None => None
  | Some picked =>
      Some (generateAnalysisResults pipeline now (activeTab st)
              (Dom.name (file picked)) (Some (file picked)) false)
  end.

(** Lines 88-89: the call has returned. *)
Definition handleAnalyzeResolved (st : State) : State :=
  {| activeTab := activeTab st;
     selectedFile := selectedFile st;
     isAnalyzing := isAnalyzing st;
     analysisProgress := lit 100;
     analysisResults := analysisResults st |}.

(** The timer callback of lines 93-100, half a second later, with the
    result of the call. *)
Definition handleAnalyzeShown (results : AnalysisResult) (st : State)
  : State :=
  {| activeTab := activeTab st;
     selectedFile := selectedFile st;
     isAnalyzing := false;
     analysisProgress := analysisProgress st;
     analysisResults := Some results |}.

(** What the user and the timers do to the page. *)
Inductive Event : Type :=
| TabChange (value : jsstring)
| FileSelect (picked : option Picked)
| Reset
| WebcamComplete (results : AnalysisResult)
| AnalyzeStart
| AnalyzeResolved
| AnalyzeShown (results : AnalysisResult).

Definition handle (event : Event) (st : State) : outcome State :=
  match event with
  | TabChange value => Returned (handleTabChange value st)
  | FileSelect picked =>
      match handleFileSelect picked st with
      | Returned (st', _) => Returned st'
      | Thrown e => Thrown e
      end
  | Reset => Returned (resetAnalysis st)
  | WebcamComplete results =>
      Returned (handleWebcamAnalysisComplete results st)
  | AnalyzeStart => Returned (handleAnalyzeStart st)
  | AnalyzeResolved => Returned (handleAnalyzeResolved st)
  | AnalyzeShown results => Returned (handleAnalyzeShown results st)
  end.

(** The state after a sequence of events, one handler after the other; the
    run ends at the first handler that throws. *)
Fixpoint run (events : list Event) (st : State) : outcome State :=
  match events with
  | [] => Returned st
  | event :: rest =>
      match handle event st with
      | Returned st' => run rest st'
      | Thrown e => Thrown e
      end
  end.

(** The values the three [TabsTrigger]s pass to [handleTabChange]. *)
Definition isTab (value : jsstring) : bool :=
  (eqb value (str "video") || eqb value (str "audio")
   || eqb value (str "image"))%bool.

(** The events the page can receive: a tab change carries the value of a
    trigger. *)
Definition fromThePage (event : Event) : Prop :=
  match event with
  | TabChange value => isTab value = true
  | _ => True
  end.

(** What holds of the page between two events. *)
Definition consistent (st : State) : Prop :=
  isTab (activeTab st) = true
  /\ forall picked,
       selectedFile st = Some picked ->
       exists types,
         typesFor (activeTab st) validTypes = Some types
         /\ listIncludes types (type picked) = true.

End Handlers.

End AnalyzePage.

(* ================================================================= *)
(** ** Properties of strings *)

Module JsStringFacts.

Lemma eqb_eq (a b : jsstring) : eqb a b = true <-> a = b.
Proof.
  revert b; induction a as [|x a IH]; intros [|y b]; simpl;
    try (split; (discriminate || reflexivity)).
  rewrite andb_true_iff, N.eqb_eq, IH.
  split; [intros [-> ->]; reflexivity | intros [= -> ->]; auto].
Qed.

Lemma startsWith_spec (s t : jsstring) :
  startsWith s t = true <-> exists rest, s = t ++ rest.
Proof.
  revert s; induction t as [|y t IH]; intros s; simpl.
  - split; [intros _; exists s; reflexivity | reflexivity].
  - destruct s as [|x s].
    + split; [discriminate | intros [rest [=]]].
    + rewrite andb_true_iff, N.eqb_eq, IH. split.
      * intros [-> [rest ->]]. exists rest. reflexivity.
      * intros [rest [= -> ->]]. split; [reflexivity | exists rest; reflexivity].
Qed.

(** [includes] is the search for a contiguous occurrence. *)
Lemma includes_spec (s t : jsstring) :
  includes s t = true <-> exists before after, s = before ++ t ++ after.
Proof.
  induction s as [|x s IH].
  - simpl. rewrite orb_false_r, startsWith_spec. split.
    + intros [rest H]. exists [], rest. exact H.
    + intros [before [after H]]. destruct before as [|b before].
      * exists after. exact H.
      * discriminate H.
  - cbn [includes]. rewrite orb_true_iff, startsWith_spec, IH. split.
    + intros [[rest H] | [before [after H]]].
      * exists [], rest. exact H.
      * exists (x :: before), after. rewrite H. reflexivity.
    + intros [[|b before] [after H]].
      * left. exists after. exact H.
      * right. injection H as _ H. exists before, after. exact H.
Qed.

Lemma includes_nil_l (t : jsstring) : t <> [] -> includes [] t = false.
Proof. destruct t; [congruence | reflexivity]. Qed.

End JsStringFacts.

(* ================================================================= *)
(** ** The classifier adapter *)

Module AdapterFacts.
Import mlDetection.

Section Facts.
Context {Num : Number}.
Variable pipeline : outcome Detector.

(** [initializeDetector] never throws: a failed load is answered by [null],
    and the cached detector is kept once it is there. *)
Lemma initializeDetector_cases (classifier : Classifier) :
  initializeDetector pipeline classifier =
  match classifier, pipeline with
  | Some d, _ => (Returned (Some d), Some d)
  | None, Returned d => (Returned (Some d), Some d)
  | None, Thrown _ => (Returned None, None)
  end.
Proof.
  unfold initializeDetector, bind, get, tryCatch, await, put, ret.
  destruct classifier as [d|]; [reflexivity|].
  destruct pipeline; reflexivity.
Qed.

Lemma inference_cases (imageData : ImageData) (classifier : Classifier) :
  inference pipeline imageData classifier =
  match classifier, pipeline with
  | Some d, _ => (d imageData, Some d)
  | None, Returned d => (d imageData, Some d)
  | None, Thrown _ => (Thrown (str "Model not initialized"), None)
  end.
Proof.
  unfold inference, bind. rewrite initializeDetector_cases.
  destruct classifier as [d|]; [reflexivity|].
  destruct pipeline; reflexivity.
Qed.

(** The [try]/[catch] of [analyzeImageWithML], by the outcome of the steps
    that can throw. *)
Lemma analyzeImageWithML_cases (imageData : ImageData)
  (classifier : Classifier) :
  analyzeImageWithML pipeline imageData classifier =
  match inference pipeline imageData classifier with
  | (Returned result, classifier') =>
      (Returned (processedResult imageData result), classifier')
  | (Thrown _, classifier') =>
      (Returned (fallbackResult imageData), classifier')
  end.
Proof.
  unfold analyzeImageWithML, inference, tryCatch, bind.
  destruct (initializeDetector pipeline classifier) as [[[d|]|e] c'];
    try reflexivity.
  unfold await, ret. destruct (d imageData); reflexivity.
Qed.

Lemma analyzeImageWithML_returns (imageData : ImageData)
  (classifier : Classifier) :
  exists r classifier',
    analyzeImageWithML pipeline imageData classifier = (Returned r, classifier').
Proof.
  rewrite analyzeImageWithML_cases.
  destruct (inference pipeline imageData classifier) as [[result|e] c'];
    eauto.
Qed.

(** The webcam test on a [File] is the test on its name. *)
Lemma isWebcamOf_file (f : Dom.File) :
  isWebcamOf (FileData f) =
  (includes (Dom.name f) (str "webcam-capture") ||
   includes (Dom.name f) (str "webcam"))%bool.
Proof.
  unfold isWebcamOf. destruct (Dom.name f); reflexivity.
Qed.

End Facts.

(** C6.  [analyzeImageWithML] never propagates an exception: from every
    state of [classifier], for every outcome of the model download and of
    the inference call, it returns a result.  When the download throws
    (nothing cached) or the inference throws, the result is the fallback
    value of the [catch] block, which is [isDeepfake: false, confidence: 95]
    for an input recognised as a webcam capture and [isDeepfake: true,
    confidence: 65] otherwise; for a [File] the recognition is whether its
    name contains "webcam-capture" or "webcam". *)
Theorem analyzeImageWithML_never_throws {Num : Number}
  (pipeline : outcome Detector) (imageData : ImageData)
  (classifier : Classifier) :
  exists r classifier',
    analyzeImageWithML pipeline imageData classifier
      = (Returned r, classifier')
    /\ (forall e, classifier = None -> pipeline = Thrown e ->
          r = fallbackResult imageData)
    /\ (forall d e,
          classifier = Some d \/ (classifier = None /\ pipeline = Returned d) ->
          d imageData = Thrown e ->
          r = fallbackResult imageData)
    /\ (isWebcamOf imageData = true ->
          isDeepfake (fallbackResult imageData) = false
          /\ confidence (fallbackResult imageData) = lit 95)
    /\ (isWebcamOf imageData = false ->
          isDeepfake (fallbackResult imageData) = true
          /\ confidence (fallbackResult imageData) = lit 65)
    /\ (forall f, imageData = FileData f ->
          isWebcamOf imageData =
          (includes (Dom.name f) (str "webcam-capture") ||
           includes (Dom.name f) (str "webcam"))%bool).
Proof.
  rewrite analyzeImageWithML_cases, inference_cases.
  assert (Hfb :
    (isWebcamOf imageData = true ->
       isDeepfake (fallbackResult imageData) = false
       /\ confidence (fallbackResult imageData) = lit 95)
    /\ (isWebcamOf imageData = false ->
       isDeepfake (fallbackResult imageData) = true
       /\ confidence (fallbackResult imageData) = lit 65)
    /\ (forall f, imageData = FileData f ->
          isWebcamOf imageData =
          (includes (Dom.name f) (str "webcam-capture") ||
           includes (Dom.name f) (str "webcam"))%bool)).
  { unfold fallbackResult; cbn.
    split; [intros ->; split; reflexivity|].
    split; [intros ->; split; reflexivity|].
    intros f ->. apply isWebcamOf_file. }
  destruct classifier as [d0|].
  - destruct (d0 imageData) as [result|e0] eqn:Hd0.
    + eexists _, _. split; [reflexivity|].
      split; [discriminate|]. split; [|exact Hfb].
      intros d e [[= <-] | [[=] _]] Hd. congruence.
    + eexists _, _. split; [reflexivity|].
      split; [reflexivity|]. split; [reflexivity | exact Hfb].
  - destruct pipeline as [d0|e0].
    + destruct (d0 imageData) as [result|e1] eqn:Hd0.
      * eexists _, _. split; [reflexivity|].
        split; [discriminate|]. split; [|exact Hfb].
        intros d e [[=] | [_ [= <-]]] Hd. congruence.
      * eexists _, _. split; [reflexivity|].
        split; [reflexivity|]. split; [reflexivity | exact Hfb].
    + eexists _, _. split; [reflexivity|].
      split; [reflexivity|]. split; [reflexivity | exact Hfb].
Qed.

(** C10.  A string input is never recognised as a webcam capture.  So for
    every string input the adapter returns; when the steps up to the
    inference return a value, the verdict is [confidence > 60] with
    [confidence] the score computed from that value; and when they throw,
    the result is the suspicious fallback [isDeepfake: true,
    confidence: 65]. *)
Theorem string_input_is_never_webcam {Num : Number}
  (pipeline : outcome Detector) (s : jsstring) (classifier : Classifier) :
  isWebcamOf (StringData s) = false
  /\ exists r classifier',
       analyzeImageWithML pipeline (StringData s) classifier
         = (Returned r, classifier')
       /\ match inference pipeline (StringData s) classifier with
          | (Returned result, _) =>
              confidence r = confidenceScoreOf result
              /\ isDeepfake r = (confidence r >? lit 60)%js
          | (Thrown _, _) =>
              isDeepfake r = true
              /\ confidence r = lit 65
              /\ features r =
                 {| artificialPatterns := lit 75;
                    naturalFeatures := lit 30;
                    textureConsistency := lit 35;
                    lighting := lit 40 |}
          end.
Proof.
  split; [reflexivity|].
  rewrite analyzeImageWithML_cases.
  destruct (inference pipeline (StringData s) classifier) as [[result|e] c'].
  - eexists _, _. split; [reflexivity|]. split; reflexivity.
  - eexists _, _. split; [reflexivity|]. repeat split; reflexivity.
Qed.

End AdapterFacts.

(* ================================================================= *)
(** ** The score generator, for every arithmetic *)

Module GeneratorFacts.
Import mlDetection analysisUtils.

Section Facts.
Context {Num : Number}.
Variable St : Type.
Variable analyzeImageWithML : ImageData -> M St MLAnalysisResult.

Lemma usesClassifier_spec (type : jsstring) (fileData : option Dom.File)
  (forceAuthentic : bool) :
  usesClassifier type fileData forceAuthentic = true <->
  (exists file, fileData = Some file)
  /\ (type = str "image" \/ type = str "video")
  /\ forceAuthentic = false.
Proof.
  unfold usesClassifier. destruct fileData as [file|].
  - rewrite andb_true_iff, orb_true_iff, negb_true_iff.
    rewrite !JsStringFacts.eqb_eq. split.
    + intros [Ht Hf]. split; [exists file; reflexivity | auto].
    + intros [_ [Ht Hf]]. auto.
  - split; [discriminate | intros [[file [=]] _]].
Qed.

(** The classifier step: the callee is run exactly under the guard of line
    70, and the [catch] of line 74 turns a throw into the defaults. *)
Lemma classify_cases (type : jsstring) (fileData : option Dom.File)
  (forceAuthentic : bool) (st : St) :
  classify analyzeImageWithML type fileData forceAuthentic st =
  match fileData with
  | Some file =>
      if usesClassifier type fileData forceAuthentic then
        match analyzeImageWithML (FileData file) st with
        | (Returned mlResults, st') => (Returned mlResults, st')
        | (Thrown _, st') => (Returned defaultResults, st')
        end
      else (Returned defaultResults, st)
  | None => (Returned defaultResults, st)
  end.
Proof.
  unfold classify, usesClassifier. destruct fileData as [file|];
    [|reflexivity].
  destruct ((eqb type (str "image") || eqb type (str "video"))
            && negb forceAuthentic)%bool; reflexivity.
Qed.

Lemma classify_returns (type : jsstring) (fileData : option Dom.File)
  (forceAuthentic : bool) (st : St) :
  exists mlResults st',
    classify analyzeImageWithML type fileData forceAuthentic st
      = (Returned mlResults, st').
Proof.
  rewrite classify_cases. destruct fileData as [file|]; [|eauto].
  destruct (usesClassifier _ _ _); [|eauto].
  destruct (analyzeImageWithML (FileData file) st) as [[ml|e] st']; eauto.
Qed.

(** The generator returns what [assemble] builds from the classifier
    step. *)
Lemma generate_returns (now type fileName : jsstring)
  (fileData : option Dom.File) (forceAuthentic : bool) (st : St) :
  exists mlResults st',
    classify analyzeImageWithML type fileData forceAuthentic st
      = (Returned mlResults, st')
    /\ generateAnalysisResultsWith analyzeImageWithML
         now type fileName fileData forceAuthentic st
       = (Returned
            (assemble now type fileName fileData forceAuthentic mlResults),
          st').
Proof.
  destruct (classify_returns type fileData forceAuthentic st)
    as (ml & st' & H).
  exists ml, st'. split; [exact H|].
  unfold generateAnalysisResultsWith, bind. rewrite H. reflexivity.
Qed.

End Facts.

Section Assemble.
Context {Num : Number}.
Variables (now type fileName : jsstring) (fileData : option Dom.File).
Variables (forceAuthentic : bool) (mlResults : MLAnalysisResult).

Let result : AnalysisResult :=
  assemble now type fileName fileData forceAuthentic mlResults.

(** The fields of the result, by the stage that computes them. *)
Lemma assemble_verdict :
  (authenticity (baseMetrics result),
   manipulationProbability (baseMetrics result),
   isDeepfake result)
  = verdictOf type fileName forceAuthentic
      (overrideResults forceAuthentic mlResults) (seedOf fileName fileData).
Proof.
  unfold result, assemble.
  destruct (verdictOf _ _ _ _ _) as [[a m] d]. reflexivity.
Qed.

Lemma assemble_confidence :
  confidence (baseMetrics result)
  = (lit 75 + sin (seedOf fileName fileData * lit 7) * lit 15)%js.
Proof.
  unfold result, assemble.
  destruct (verdictOf _ _ _ _ _) as [[a m] d]. reflexivity.
Qed.

Lemma assemble_specificMetrics :
  specificMetrics result
  = specificMetricsOf type forceAuthentic
      (overrideResults forceAuthentic mlResults)
      (isDeepfake result) (seedOf fileName fileData).
Proof.
  unfold result, assemble.
  destruct (verdictOf _ _ _ _ _) as [[a m] d]. reflexivity.
Qed.

Lemma assemble_confidenceInterval :
  confidenceInterval result
  = rounded (confidence (baseMetrics result) - lit 8)%js ++ str "%-"
    ++ rounded (confidence (baseMetrics result) + lit 8)%js ++ str "%".
Proof.
  unfold result, assemble.
  destruct (verdictOf _ _ _ _ _) as [[a m] d]. reflexivity.
Qed.

Lemma verdictOf_complement (ml : MLAnalysisResult) (seed : num) :
  let '(authenticity, manipulationProbability, _) :=
    verdictOf type fileName forceAuthentic ml seed in
  manipulationProbability = (lit 100 - authenticity)%js.
Proof.
  unfold verdictOf.
  destruct (forceAuthentic || includes fileName (str "webcam-capture"))%bool;
    [reflexivity|].
  destruct (eqb type (str "video")); reflexivity.
Qed.

Lemma assemble_complement :
  manipulationProbability (baseMetrics result)
  = (lit 100 - authenticity (baseMetrics result))%js.
Proof.
  pose proof assemble_verdict as Hv.
  pose proof (verdictOf_complement
                (overrideResults forceAuthentic mlResults)
                (seedOf fileName fileData)) as Hc.
  destruct (verdictOf _ _ _ _ _) as [[a m] d].
  injection Hv as -> -> _. exact Hc.
Qed.

End Assemble.

(** C1.  For every callee, clock, media kind, file name, file and
    [forceAuthentic] flag, and from every state, [generateAnalysisResults]
    returns a result whose [baseMetrics.manipulationProbability] is
    [100 - baseMetrics.authenticity], in whatever arithmetic the numbers
    are computed. *)
Theorem manipulationProbability_is_complement {Num : Number} (St : Type)
  (analyzeImageWithML : ImageData -> M St MLAnalysisResult)
  (now type fileName : jsstring) (fileData : option Dom.File)
  (forceAuthentic : bool) (st : St) :
  exists r st',
    generateAnalysisResultsWith analyzeImageWithML
      now type fileName fileData forceAuthentic st = (Returned r, st')
    /\ manipulationProbability (baseMetrics r)
       = (lit 100 - authenticity (baseMetrics r))%js.
Proof.
  destruct (generate_returns analyzeImageWithML now type fileName fileData
              forceAuthentic st) as (ml & st' & _ & H).
  eexists _, _. split; [exact H|]. apply assemble_complement.
Qed.

(** C8.  For every result, [confidenceInterval] is the text of
    [Math.round(confidence - 8)], a percent sign, a hyphen, the text of
    [Math.round(confidence + 8)] and a percent sign, with [confidence] the
    result's [baseMetrics.confidence]. *)
Theorem confidenceInterval_format {Num : Number} (St : Type)
  (analyzeImageWithML : ImageData -> M St MLAnalysisResult)
  (now type fileName : jsstring) (fileData : option Dom.File)
  (forceAuthentic : bool) (st : St) :
  exists r st',
    generateAnalysisResultsWith analyzeImageWithML
      now type fileName fileData forceAuthentic st = (Returned r, st')
    /\ confidenceInterval r
       = toString (round (confidence (baseMetrics r) - lit 8)%js)
         ++ str "%" ++ str "-"
         ++ toString (round (confidence (baseMetrics r) + lit 8)%js)
         ++ str "%".
Proof.
  destruct (generate_returns analyzeImageWithML now type fileName fileData
              forceAuthentic st) as (ml & st' & _ & H).
  eexists _, _. split; [exact H|].
  rewrite assemble_confidenceInterval. unfold rounded.
  change (str "%-") with (str "%" ++ str "-").
  rewrite <- app_assoc. reflexivity.
Qed.

Section Clock.
Context {Num : Number}.

(** The clock only reaches [analysisDate]. *)
Lemma assemble_metrics_ignore_clock (now1 now2 type fileName : jsstring)
  (fileData : option Dom.File) (forceAuthentic : bool)
  (mlResults : MLAnalysisResult) :
  baseMetrics (assemble now1 type fileName fileData forceAuthentic mlResults)
  = baseMetrics (assemble now2 type fileName fileData forceAuthentic mlResults)
  /\ specificMetrics
       (assemble now1 type fileName fileData forceAuthentic mlResults)
     = specificMetrics
         (assemble now2 type fileName fileData forceAuthentic mlResults).
Proof.
  unfold assemble.
  destruct (verdictOf _ _ _ _ _) as [[a m] d]. split; reflexivity.
Qed.

(** The seed depends on the file name through the sum of its code units
    only, and on the file through its size modulo 1000 only. *)
Lemma seedOf_pure (fileName1 fileName2 : jsstring)
  (fileData1 fileData2 : option Dom.File) :
  charCodeSum fileName1 = charCodeSum fileName2 ->
  option_map (fun f => (Dom.size f mod 1000)%N) fileData1
  = option_map (fun f => (Dom.size f mod 1000)%N) fileData2 ->
  seedOf fileName1 fileData1 = seedOf fileName2 fileData2.
Proof.
  intros Hsum Hsize. unfold seedOf, hash, fileSizeFactor. rewrite Hsum.
  destruct fileData1, fileData2; simpl in Hsize;
    try discriminate; [|reflexivity].
  injection Hsize as ->. reflexivity.
Qed.

(** With [forceAuthentic], what the classifier step left in [mlResults]
    does not reach the result. *)
Lemma assemble_forced (now type fileName : jsstring)
  (fileData : option Dom.File) (mlResults : MLAnalysisResult) :
  assemble now type fileName fileData true mlResults
  = assemble now type fileName fileData true authenticResults.
Proof. reflexivity. Qed.

(** The branch of lines 109-113, in every arithmetic. *)
Lemma assemble_forced_verdict (now type fileName : jsstring)
  (fileData : option Dom.File) (forceAuthentic : bool)
  (mlResults : MLAnalysisResult) :
  (forceAuthentic || includes fileName (str "webcam-capture"))%bool = true ->
  let r := assemble now type fileName fileData forceAuthentic mlResults in
  authenticity (baseMetrics r)
  = (lit 90 + sin (seedOf fileName fileData * lit 5) * lit 5)%js
  /\ manipulationProbability (baseMetrics r)
     = (lit 100 - authenticity (baseMetrics r))%js
  /\ isDeepfake r = false.
Proof.
  intros Hg r.
  pose proof (assemble_verdict now type fileName fileData forceAuthentic
                mlResults) as Hv.
  unfold verdictOf in Hv. rewrite Hg in Hv. fold r in Hv.
  injection Hv as Ha Hm Hd. rewrite Hm, Ha. auto.
Qed.

End Clock.

(** C2.  Two calls with the same media kind, file name, file and
    [forceAuthentic] flag, in which the classifier ends the same way (the
    same value returned, or the same error thrown), both return, with equal
    [baseMetrics] and equal [specificMetrics]; the clocks, the states of the
    classifier cache and the callees of the two calls may differ. *)
Theorem metrics_are_deterministic {Num : Number} (St : Type)
  (analyzeImageWithML1 analyzeImageWithML2
     : ImageData -> M St MLAnalysisResult)
  (now1 now2 type fileName : jsstring) (fileData : option Dom.File)
  (forceAuthentic : bool) (st1 st2 : St) :
  (forall file, fileData = Some file ->
     fst (analyzeImageWithML1 (FileData file) st1)
     = fst (analyzeImageWithML2 (FileData file) st2)) ->
  exists r1 st1' r2 st2',
    generateAnalysisResultsWith analyzeImageWithML1
      now1 type fileName fileData forceAuthentic st1 = (Returned r1, st1')
    /\ generateAnalysisResultsWith analyzeImageWithML2
         now2 type fileName fileData forceAuthentic st2 = (Returned r2, st2')
    /\ baseMetrics r1 = baseMetrics r2
    /\ specificMetrics r1 = specificMetrics r2.
Proof.
  intros Hsame.
  destruct (generate_returns analyzeImageWithML1 now1 type fileName fileData
              forceAuthentic st1) as (ml1 & st1' & Hc1 & H1).
  destruct (generate_returns analyzeImageWithML2 now2 type fileName fileData
              forceAuthentic st2) as (ml2 & st2' & Hc2 & H2).
  eexists _, st1', _, st2'. split; [exact H1|]. split; [exact H2|].
  assert (ml1 = ml2) as ->.
  { rewrite classify_cases in Hc1, Hc2.
    destruct fileData as [file|]; [|congruence].
    destruct (usesClassifier _ _ _); [|congruence].
    specialize (Hsame file eq_refl).
    destruct (analyzeImageWithML1 (FileData file) st1) as [[a1|e1] s1],
             (analyzeImageWithML2 (FileData file) st2) as [[a2|e2] s2];
      simpl in Hsame; congruence. }
  apply assemble_metrics_ignore_clock.
Qed.

(** C3, as the code has it.  The override of [mlResults] is guarded by
    [forceAuthentic] alone.  With [forceAuthentic] the value read by the
    rest of the function is the fixed tuple [isDeepfake: false,
    confidence: 90, features: (12, 92, 95, 90)], the callee is not run, and
    the result is the one built from that tuple.  Without [forceAuthentic]
    the value is the one the classifier step left, whatever the file name
    is. *)
Theorem forceAuthentic_overrides_mlResults {Num : Number} (St : Type)
  (analyzeImageWithML : ImageData -> M St MLAnalysisResult)
  (now type fileName : jsstring) (fileData : option Dom.File)
  (mlResults : MLAnalysisResult) (st : St) :
  overrideResults true mlResults
  = {| mlDetection.isDeepfake := false;
       mlDetection.confidence := lit 90;
       features :=
         {| artificialPatterns := lit 12;
            naturalFeatures := lit 92;
            textureConsistency := lit 95;
            lighting := lit 90 |} |}
  /\ overrideResults false mlResults = mlResults
  /\ generateAnalysisResultsWith analyzeImageWithML
       now type fileName fileData true st
     = (Returned (assemble now type fileName fileData true authenticResults),
        st).
Proof.
  split; [reflexivity|]. split; [reflexivity|].
  unfold generateAnalysisResultsWith, bind.
  rewrite classify_cases.
  assert (usesClassifier type fileData true = false) as Hg.
  { unfold usesClassifier. destruct fileData; [|reflexivity].
    apply andb_false_r. }
  rewrite Hg. destruct fileData; reflexivity.
Qed.

(** C7.  [generateAnalysisResults] returns a result for every callee and
    every input; it cannot throw.  The callee is run exactly when a file is
    supplied, the media kind is "image" or "video" and [forceAuthentic] is
    false: otherwise the state is untouched and the result is built from the
    zeroed defaults, whatever the callee would do.  When the callee is run
    and throws, the result is built from the same zeroed defaults; when it
    returns, from its value. *)
Theorem generateAnalysisResults_always_returns {Num : Number} (St : Type)
  (analyzeImageWithML : ImageData -> M St MLAnalysisResult)
  (now type fileName : jsstring) (fileData : option Dom.File)
  (forceAuthentic : bool) (st : St) :
  exists r st',
    generateAnalysisResultsWith analyzeImageWithML
      now type fileName fileData forceAuthentic st = (Returned r, st')
    /\ (usesClassifier type fileData forceAuthentic = true <->
        (exists file, fileData = Some file)
        /\ (type = str "image" \/ type = str "video")
        /\ forceAuthentic = false)
    /\ (usesClassifier type fileData forceAuthentic = false ->
        st' = st
        /\ r = assemble now type fileName fileData forceAuthentic
                 defaultResults)
    /\ (forall file,
          fileData = Some file ->
          usesClassifier type fileData forceAuthentic = true ->
          match analyzeImageWithML (FileData file) st with
          | (Returned mlResults, st1) =>
              st' = st1
              /\ r = assemble now type fileName fileData forceAuthentic
                       mlResults
          | (Thrown _, st1) =>
              st' = st1
              /\ r = assemble now type fileName fileData forceAuthentic
                       defaultResults
          end)
    /\ defaultResults
       = {| mlDetection.isDeepfake := false;
            mlDetection.confidence := lit 0;
            features :=
              {| artificialPatterns := lit 0;
                 naturalFeatures := lit 0;
                 textureConsistency := lit 0;
                 lighting := lit 0 |} |}.
Proof.
  destruct (generate_returns analyzeImageWithML now type fileName fileData
              forceAuthentic st) as (ml & st' & Hc & H).
  eexists _, st'. split; [exact H|].
  split; [apply usesClassifier_spec|].
  rewrite classify_cases in Hc.
  split; [|split; [|reflexivity]].
  - intros Hg. rewrite Hg in Hc.
    destruct fileData; injection Hc as <- <-; split; reflexivity.
  - intros file -> Hg. rewrite Hg in Hc.
    destruct (analyzeImageWithML (FileData file) st) as [[a|e] s];
      injection Hc as <- <-; split; reflexivity.
Qed.

End GeneratorFacts.

(* ================================================================= *)
(** ** Exact real arithmetic: facts *)

Module RealNumberFacts.
Import RealNumber.
Local Open Scope R_scope.

Lemma Rgtb_spec (x y : R) : Rgtb x y = true <-> x > y.
Proof.
  unfold Rgtb. destruct (Rgt_dec x y); split; (easy || discriminate).
Qed.

Lemma Rgtb_false (x y : R) : Rgtb x y = false <-> x <= y.
Proof.
  unfold Rgtb. destruct (Rgt_dec x y); split; intros H;
    (reflexivity || discriminate || lra).
Qed.

Lemma Rtruthy_spec (x : R) : Rtruthy x = true <-> x <> 0.
Proof.
  unfold Rtruthy. destruct (Req_dec_T x 0); split; intros H;
    (reflexivity || discriminate || congruence).
Qed.

(** [Rround] is [Math.round] on the reals: the integer [z] with
    [z - 1/2 <= x < z + 1/2]. *)
Lemma Rround_spec (x : R) (z : Z) :
  IZR z - / 2 <= x < IZR z + / 2 -> Rround x = IZR z.
Proof.
  intros [Hlo Hhi]. unfold Rround. f_equal. symmetry.
  apply Int_part_spec. split; lra.
Qed.

Lemma Rround_half_up (z : Z) : Rround (IZR z + / 2) = IZR (z + 1).
Proof.
  apply Rround_spec. rewrite plus_IZR. split; lra.
Qed.

Lemma RtoString_integer (z : Z) : RtoString (IZR z) = ZtoString z.
Proof.
  unfold RtoString. f_equal. symmetry. apply Int_part_spec. split; lra.
Qed.

Example ZtoString_67 : ZtoString 67 = str "67".
Proof. reflexivity. Qed.

Example ZtoString_0 : ZtoString 0 = str "0".
Proof. reflexivity. Qed.

(** [base + sin(x) * amplitude] stays within [base - amplitude] and
    [base + amplitude]. *)
Lemma sine_term_range (base amplitude x : R) :
  0 <= amplitude ->
  base - amplitude <= base + Rtrigo_def.sin x * amplitude <= base + amplitude.
Proof.
  intros Ha. destruct (SIN_bound x) as [Hlo Hhi]. split; nra.
Qed.

(** Two digits of pi, from Machin's formula with arguments 1/3 and 1/7. *)
Lemma PI_bounds : 313 / 100 <= PI <= 324 / 100.
Proof.
  pose proof (PI_2_3_7_ineq 0) as [Hlo Hhi].
  unfold PI_2_3_7_tg, tg_alt, Ratan_seq in Hlo, Hhi; simpl in Hlo, Hhi.
  lra.
Qed.

(** The sine at [5 * 0.815], the argument of the run on "test.jpg". *)
Lemma sin_4075 : Rtrigo_def.sin (4075 / 1000) < - (1 / 4).
Proof.
  pose proof PI_bounds as [Hlo Hhi].
  set (x := 4075 / 1000 - PI).
  assert (Hx : 83 / 100 <= x <= 95 / 100) by (unfold x; lra).
  replace (4075 / 1000) with (x + PI) by (unfold x; ring).
  rewrite neg_sin.
  destruct (SIN x) as [Hlb _]; [lra | lra |].
  unfold sin_lb, sin_approx, sin_term in Hlb; simpl in Hlb.
  assert (H2 : 0 <= x * x <= 1) by nra.
  assert (H3 : 0 <= x * x * x <= 95 / 100 * (95 / 100) * (95 / 100)) by nra.
  assert (H4 : 0 <= x * x * x * x <= 1) by nra.
  assert (H5 : 0 <= x * x * x * x * x <= 1) by nra.
  assert (H6 : 0 <= x * x * x * x * x * x <= 1) by nra.
  assert (H7 : 0 <= x * x * x * x * x * x * x <= 1) by nra.
  lra.
Qed.

End RealNumberFacts.

(* ================================================================= *)
(** ** The score generator in exact real arithmetic *)

Module RealGenerator.
Import mlDetection analysisUtils RealNumber Ranges Samples.
Import AdapterFacts GeneratorFacts RealNumberFacts.
Local Open Scope R_scope.

Ltac sine_bounds :=
  repeat match goal with
  | |- context [Rtrigo_def.sin ?x * ?a] =>
      lazymatch goal with
      | _ : _ <= _ + Rtrigo_def.sin x * a <= _ |- _ => fail
      | _ => idtac
      end;
      let H := fresh "Hsin" in
      assert (H : 0 - a <= 0 + Rtrigo_def.sin x * a <= 0 + a)
        by (apply sine_term_range; lra)
  end.

Ltac case_ifs :=
  repeat match goal with
  | |- context [if ?c then _ else _] => destruct c eqn:?
  end.

(** *** Ranges of the classifier outputs *)

Lemma defaultResults_in_range : classifierInRange defaultResults.
Proof. unfold classifierInRange, percentage; cbn. lra. Qed.

Lemma authenticResults_in_range : classifierInRange authenticResults.
Proof. unfold classifierInRange, percentage; cbn. lra. Qed.

Lemma overrideResults_in_range (forceAuthentic : bool)
  (ml : MLAnalysisResult) :
  classifierInRange ml ->
  classifierInRange (overrideResults forceAuthentic ml).
Proof.
  intros H. destruct forceAuthentic; [apply authenticResults_in_range | exact H].
Qed.

Lemma fallbackResult_in_range (imageData : ImageData) :
  classifierInRange (fallbackResult imageData).
Proof.
  unfold classifierInRange, percentage, fallbackResult; cbn.
  destruct (isWebcamOf imageData); lra.
Qed.

Lemma confidenceScoreOf_in_range (result : RawResult) :
  (forall first rest, result = Labels (first :: rest) ->
     0 <= score first <= 1) ->
  percentage (confidenceScoreOf result).
Proof.
  intros Hscore. unfold percentage, confidenceScoreOf.
  destruct result as [|[|first rest]]; cbn; try lra.
  specialize (Hscore first rest eq_refl).
  destruct (Rtruthy (score first)); lra.
Qed.

Lemma processedResult_in_range (imageData : ImageData) (result : RawResult) :
  (forall first rest, result = Labels (first :: rest) ->
     0 <= score first <= 1) ->
  classifierInRange (processedResult imageData result).
Proof.
  intros Hscore. apply confidenceScoreOf_in_range in Hscore.
  unfold classifierInRange, percentage, processedResult in *; cbn.
  case_ifs; lra.
Qed.

(** What the adapter returns is within range when the detectors it may call
    answer with probabilities. *)
Lemma analyzeImageWithML_in_range (pipeline : outcome Detector)
  (imageData : ImageData) (classifier : Classifier)
  (mlResults : MLAnalysisResult) (classifier' : Classifier) :
  (forall d, classifier = Some d -> scoresAreProbabilities d) ->
  (forall d, pipeline = Returned d -> scoresAreProbabilities d) ->
  analyzeImageWithML pipeline imageData classifier
    = (Returned mlResults, classifier') ->
  classifierInRange mlResults.
Proof.
  intros Hcached Hloaded.
  rewrite analyzeImageWithML_cases, inference_cases.
  assert (forall d, scoresAreProbabilities d ->
            match d imageData with
            | Returned result =>
                (Returned (processedResult imageData result), Some d)
            | Thrown _ => (Returned (fallbackResult imageData), Some d)
            end = (Returned mlResults, classifier') ->
            classifierInRange mlResults) as Hcall.
  { intros d Hd H. destruct (d imageData) as [result|e] eqn:Hr;
      injection H as <- _.
    - apply processedResult_in_range. intros first rest ->.
      exact (Hd imageData first rest Hr).
    - apply fallbackResult_in_range. }
  destruct classifier as [d|].
  - apply Hcall, Hcached. reflexivity.
  - destruct pipeline as [d|e].
    + apply Hcall, Hloaded. reflexivity.
    + intros H. injection H as <- _. apply fallbackResult_in_range.
Qed.

(** *** Ranges of the result *)

Lemma verdictOf_in_range (type fileName : jsstring) (forceAuthentic : bool)
  (ml : MLAnalysisResult) (seed : R) :
  let '(authenticity, manipulationProbability, _) :=
    verdictOf type fileName forceAuthentic ml seed in
  percentage authenticity /\ percentage manipulationProbability.
Proof.
  unfold verdictOf, percentage; cbn.
  case_ifs; sine_bounds; lra.
Qed.

Lemma specificMetricsOf_in_range (type : jsstring) (forceAuthentic : bool)
  (ml : MLAnalysisResult) (isDeepfake : bool) (seed : R) :
  classifierInRange ml ->
  Forall percentage
    (metricValues (specificMetricsOf type forceAuthentic ml isDeepfake seed)).
Proof.
  intros (Hc & Ha & Hn & Ht & Hl).
  unfold specificMetricsOf, percentage in *.
  destruct (eqb type (str "video")); [|destruct (eqb type (str "audio"))];
    cbn; repeat (apply Forall_cons); try apply Forall_nil;
    case_ifs; sine_bounds; lra.
Qed.

Lemma assemble_in_range (now type fileName : jsstring)
  (fileData : option Dom.File) (forceAuthentic : bool)
  (ml : MLAnalysisResult) :
  classifierInRange ml ->
  resultInRange (assemble now type fileName fileData forceAuthentic ml).
Proof.
  intros Hml. unfold resultInRange.
  pose proof (assemble_verdict now type fileName fileData forceAuthentic ml)
    as Hv.
  pose proof (verdictOf_in_range type fileName forceAuthentic
                (overrideResults forceAuthentic ml)
                (seedOf fileName fileData)) as Hr.
  destruct (verdictOf _ _ _ _ _) as [[a m] d].
  injection Hv as -> -> _. destruct Hr as [Ha Hm].
  split; [exact Ha|]. split; [exact Hm|]. split; [|split].
  - rewrite assemble_confidence. unfold percentage; cbn.
    sine_bounds; lra.
  - rewrite assemble_specificMetrics.
    apply specificMetricsOf_in_range, overrideResults_in_range, Hml.
  - destruct (specificMetrics _); reflexivity.
Qed.

Lemma generate_in_range (St : Type)
  (analyzeImageWithML : ImageData -> M St MLAnalysisResult)
  (now type fileName : jsstring) (fileData : option Dom.File)
  (forceAuthentic : bool) (st : St) :
  (forall file mlResults st1,
     fileData = Some file ->
     analyzeImageWithML (FileData file) st = (Returned mlResults, st1) ->
     classifierInRange mlResults) ->
  exists r st',
    generateAnalysisResultsWith analyzeImageWithML
      now type fileName fileData forceAuthentic st = (Returned r, st')
    /\ resultInRange r.
Proof.
  intros Hrange.
  destruct (generate_returns analyzeImageWithML now type fileName fileData
              forceAuthentic st) as (ml & st' & Hc & H).
  eexists _, st'. split; [exact H|].
  apply assemble_in_range.
  rewrite classify_cases in Hc.
  destruct fileData as [file|];
    [|injection Hc as <- _; apply defaultResults_in_range].
  destruct (usesClassifier _ _ _);
    [|injection Hc as <- _; apply defaultResults_in_range].
  destruct (analyzeImageWithML (FileData file) st) as [[a|e] s] eqn:Ha;
    injection Hc as <- _.
  - exact (Hrange file a s eq_refl Ha).
  - apply defaultResults_in_range.
Qed.

(** The generator as linked with the adapter: every percentage is within
    range as soon as the model's scores are probabilities. *)
Lemma generateAnalysisResults_in_range (pipeline : outcome Detector)
  (now type fileName : jsstring) (fileData : option Dom.File)
  (forceAuthentic : bool) (classifier : Classifier) :
  (forall d, classifier = Some d -> scoresAreProbabilities d) ->
  (forall d, pipeline = Returned d -> scoresAreProbabilities d) ->
  exists r classifier',
    generateAnalysisResults pipeline
      now type fileName fileData forceAuthentic classifier
    = (Returned r, classifier')
    /\ resultInRange r.
Proof.
  intros Hcached Hloaded. apply generate_in_range.
  intros file ml st1 _ H.
  eapply analyzeImageWithML_in_range; eassumption.
Qed.

(** C5.  In exact real arithmetic: for every media kind, file name, file and
    flag, if the classifier, where it returns, returns a confidence and
    features within [0, 100], then the call returns a result in which
    [authenticity], [manipulationProbability], [confidence] and the five
    [specificMetrics] fields are all within [0, 100]. *)
Theorem percentages_stay_in_range (St : Type)
  (analyzeImageWithML : ImageData -> M St MLAnalysisResult)
  (now type fileName : jsstring) (fileData : option Dom.File)
  (forceAuthentic : bool) (st : St) :
  (forall file mlResults st1,
     fileData = Some file ->
     analyzeImageWithML (FileData file) st = (Returned mlResults, st1) ->
     classifierInRange mlResults) ->
  exists r st',
    generateAnalysisResultsWith analyzeImageWithML
      now type fileName fileData forceAuthentic st = (Returned r, st')
    /\ 0 <= authenticity (baseMetrics r) <= 100
    /\ 0 <= manipulationProbability (baseMetrics r) <= 100
    /\ 0 <= confidence (baseMetrics r) <= 100
    /\ Forall (fun x => 0 <= x <= 100) (metricValues (specificMetrics r))
    /\ List.length (metricValues (specificMetrics r)) = 5%nat.
Proof.
  intros Hrange.
  destruct (@generate_in_range St analyzeImageWithML now type fileName
              fileData forceAuthentic st Hrange) as (r & st' & Hrun & Hr).
  exists r, st'. split; [exact Hrun | exact Hr].
Qed.

(** C4.  In exact real arithmetic: when [forceAuthentic] is true or the
    file name contains "webcam-capture", the call returns a result with
    [isDeepfake = false] and [authenticity = 90 + 5 sin(5 seed)], which lies
    within [85, 95]. *)
Theorem forced_authentic_verdict (St : Type)
  (analyzeImageWithML : ImageData -> M St MLAnalysisResult)
  (now type fileName : jsstring) (fileData : option Dom.File)
  (forceAuthentic : bool) (st : St) :
  forceAuthentic = true \/ includes fileName (str "webcam-capture") = true ->
  exists r st',
    generateAnalysisResultsWith analyzeImageWithML
      now type fileName fileData forceAuthentic st = (Returned r, st')
    /\ isDeepfake r = false
    /\ authenticity (baseMetrics r)
       = 90 + 5 * Rtrigo_def.sin (5 * seedOf fileName fileData)
    /\ 85 <= authenticity (baseMetrics r) <= 95.
Proof.
  intros Hforced. apply orb_true_iff in Hforced.
  destruct (generate_returns analyzeImageWithML now type fileName fileData
              forceAuthentic st) as (ml & st' & _ & H).
  eexists _, st'. split; [exact H|].
  destruct (assemble_forced_verdict now type fileName fileData forceAuthentic
              ml Hforced) as (Ha & _ & Hd).
  split; [exact Hd|]. rewrite Ha. split.
  - cbn. f_equal. rewrite Rmult_comm. do 2 f_equal. apply Rmult_comm.
  - cbn. sine_bounds. lra.
Qed.

(** C9.  In exact real arithmetic, for the file name "test.jpg", the kind
    "image", no file and [forceAuthentic = false]: the classifier is not
    run (the guard is false, and for every callee the state is unchanged);
    the code units of the name sum to 815 and the seed is 815/1000; the
    result has [authenticity = 50 + 40 sin(5 seed)] and
    [isDeepfake = (manipulationProbability > 60)]. *)
Theorem test_jpg_without_bytes (St : Type)
  (analyzeImageWithML : ImageData -> M St MLAnalysisResult)
  (now : jsstring) (st : St) :
  usesClassifier (str "image") None false = false
  /\ charCodeSum (str "test.jpg") = 815%Z
  /\ seedOf (str "test.jpg") None = 815 / 1000
  /\ exists r,
       generateAnalysisResultsWith analyzeImageWithML
         now (str "image") (str "test.jpg") None false st = (Returned r, st)
       /\ authenticity (baseMetrics r)
          = 50 + 40 * Rtrigo_def.sin (5 * seedOf (str "test.jpg") None)
       /\ isDeepfake r
          = Rgtb (manipulationProbability (baseMetrics r)) 60.
Proof.
  split; [reflexivity|]. split; [reflexivity|].
  split; [unfold seedOf, hash, fileSizeFactor; cbn; lra|].
  eexists. split; [reflexivity|].
  assert (Rgtb 0 0 = false) as Hzero by (apply Rgtb_false; lra).
  split; cbn; rewrite !Hzero; [|reflexivity].
  f_equal. rewrite Rmult_comm. do 2 f_equal. apply Rmult_comm.
Qed.

(** *** Concrete runs *)

(** The run of C9 ends in the verdict "Potential Deepfake Detected":
    [sin(4.075)] is below [-1/4], so [manipulationProbability] is above
    60. *)
Lemma test_jpg_is_flagged (St : Type)
  (analyzeImageWithML : ImageData -> M St MLAnalysisResult)
  (now : jsstring) (st : St) :
  exists r,
    generateAnalysisResultsWith analyzeImageWithML
      now (str "image") (str "test.jpg") None false st = (Returned r, st)
    /\ manipulationProbability (baseMetrics r) > 60
    /\ isDeepfake r = true
    /\ overallResult r = str "Potential Deepfake Detected".
Proof.
  eexists. split; [reflexivity|].
  assert (Rgtb 0 0 = false) as Hzero by (apply Rgtb_false; lra).
  assert (100 - (50 + Rtrigo_def.sin ((815 / 1000 + 0) * 5) * 40) > 60)
    as Hm.
  { replace ((815 / 1000 + 0) * 5) with (4075 / 1000) by lra.
    pose proof sin_4075. lra. }
  cbn. rewrite !Hzero.
  apply Rgtb_spec in Hm as Hb. rewrite Hb.
  split; [exact Hm|]. split; reflexivity.
Qed.

(** As linked, a classifier that fails does not leave the zeroed defaults:
    the adapter answers with its own fallback, so the [catch] of line 74 is
    never entered. *)
Lemma offline_classifier_gives_fallback :
  classify (analyzeImageWithML offline) (str "image") (Some photo) false None
  = (Returned (fallbackResult (FileData photo)), None)
  /\ mlDetection.isDeepfake (fallbackResult (FileData photo)) = true
  /\ mlDetection.confidence (fallbackResult (FileData photo)) = 65.
Proof. repeat split. Qed.

(** C3, as stated, fails.  The file name "webcam-capture.jpg" contains
    "webcam-capture"; with [forceAuthentic = false] and a model that cannot
    be loaded, the classifier step leaves the adapter's fallback
    (confidence 95) in [mlResults], and the value read by the rest of the
    function is that fallback, not the fixed tuple (confidence 90).  The
    result shows it: its image metrics are the features of the fallback
    (90, 15, 90, 85, 15), where the fixed tuple would give
    (92, 12, 90, 95, 12). *)
Lemma webcam_name_does_not_override_mlResults :
  includes (Dom.name webcamCapture) (str "webcam-capture") = true
  /\ (exists mlResults classifier',
        classify (analyzeImageWithML offline)
          (str "image") (Some webcamCapture) false None
        = (Returned mlResults, classifier')
        /\ mlDetection.confidence (overrideResults false mlResults) = 95
        /\ overrideResults false mlResults <> authenticResults)
  /\ (exists r classifier',
        generateAnalysisResults offline morning (str "image")
          (Dom.name webcamCapture) (Some webcamCapture) false None
        = (Returned r, classifier')
        /\ metricValues (specificMetrics r) = [90; 15; 90; 85; 15]).
Proof.
  split; [reflexivity|]. split.
  - eexists _, _. split; [reflexivity|]. split; [reflexivity|].
    intros H. apply (f_equal mlDetection.confidence) in H. cbn in H. lra.
  - eexists _, _. split; [reflexivity|].
    assert (Rtruthy 90 = true) as H90 by (apply Rtruthy_spec; lra).
    assert (Rtruthy 15 = true) as H15 by (apply Rtruthy_spec; lra).
    assert (Rtruthy 85 = true) as H85 by (apply Rtruthy_spec; lra).
    cbn. rewrite H90, H15, H85. reflexivity.
Qed.

Lemma metrics_are_deterministic_witness :
  exists r1 st1' r2 st2',
    generateAnalysisResultsWith (analyzeImageWithML (Returned confident))
      morning (str "image") (str "photo.jpg") (Some photo) false None
    = (Returned r1, st1')
    /\ generateAnalysisResultsWith (analyzeImageWithML offline)
         evening (str "image") (str "photo.jpg") (Some photo) false
         (Some confident)
       = (Returned r2, st2')
    /\ baseMetrics r1 = baseMetrics r2
    /\ specificMetrics r1 = specificMetrics r2.
Proof.
  apply (metrics_are_deterministic (Num := real)).
  intros file _. reflexivity.
Defined.

Lemma forced_authentic_verdict_witness :
  exists r st',
    generateAnalysisResultsWith (analyzeImageWithML offline)
      morning (str "image") (str "webcam-capture.jpg")
      (Some webcamCapture) true None
    = (Returned r, st')
    /\ isDeepfake r = false
    /\ authenticity (baseMetrics r)
       = 90 + 5 * Rtrigo_def.sin
                    (5 * seedOf (str "webcam-capture.jpg") (Some webcamCapture))
    /\ 85 <= authenticity (baseMetrics r) <= 95.
Proof.
  apply forced_authentic_verdict. left. reflexivity.
Defined.

Lemma percentages_stay_in_range_witness :
  exists r st',
    generateAnalysisResultsWith (analyzeImageWithML (Returned confident))
      morning (str "image") (str "photo.jpg") (Some photo) false None
    = (Returned r, st')
    /\ 0 <= authenticity (baseMetrics r) <= 100
    /\ 0 <= manipulationProbability (baseMetrics r) <= 100
    /\ 0 <= confidence (baseMetrics r) <= 100
    /\ Forall (fun x => 0 <= x <= 100) (metricValues (specificMetrics r))
    /\ List.length (metricValues (specificMetrics r)) = 5%nat.
Proof.
  apply percentages_stay_in_range.
  intros file mlResults st1 _ H.
  eapply analyzeImageWithML_in_range; [| |exact H].
  - discriminate.
  - intros d [= <-] imageData first rest [= <-]. cbn. lra.
Defined.

End RealGenerator.

(* ================================================================= *)
(** ** Runs in IEEE-754 doubles *)

Module DoubleRuns.
Import mlDetection analysisUtils DoubleNumber DoubleSamples Samples.

(** The seed of "test.jpg" is the double nearest to 0.815. *)
Example seed_of_test_jpg :
  seedOf (Num := atPeak) (str "test.jpg") None
  = PrimFloat.div (ofZ 815) (ofZ 1000).
Proof. vm_compute. reflexivity. Qed.

(** The ends of the ranges are met exactly in doubles: a forced-authentic
    image at the two extreme values of the sine. *)
Example forced_authentic_at_peak :
  let r := assemble (Num := atPeak) morning (str "image")
             (str "webcam-capture.jpg") None true defaultResults in
  authenticity (baseMetrics r) = ofZ 95
  /\ manipulationProbability (baseMetrics r) = ofZ 5
  /\ confidence (baseMetrics r) = ofZ 90
  /\ metricValues (specificMetrics r)
     = [ofZ 95; ofZ 20; ofZ 97; ofZ 93; ofZ 25].
Proof. vm_compute. repeat split. Qed.

Example forced_authentic_at_trough :
  let r := assemble (Num := atTrough) morning (str "image")
             (str "webcam-capture.jpg") None true defaultResults in
  authenticity (baseMetrics r) = ofZ 85
  /\ manipulationProbability (baseMetrics r) = ofZ 15
  /\ confidence (baseMetrics r) = ofZ 60
  /\ metricValues (specificMetrics r)
     = [ofZ 85; ofZ 10; ofZ 87; ofZ 83; ofZ 15].
Proof. vm_compute. repeat split. Qed.

End DoubleRuns.

Unset Implicit Arguments.

(* ================================================================= *)
(** ** The adapter's cache and its webcam exemption *)

Module AdapterCacheFacts.
Import mlDetection AdapterFacts.


(** A [File] whose name contains "webcam" is never flagged by the adapter:
    whatever the model answers, and also when it fails, the adapter returns
    [isDeepfake = false]. *)
Theorem webcam_named_file_is_never_flagged {Num : Number}
  (pipeline : outcome Detector) (f : Dom.File) (classifier : Classifier) :
  includes (Dom.name f) (str "webcam") = true ->
  exists r classifier',
    analyzeImageWithML pipeline (FileData f) classifier
      = (Returned r, classifier')
    /\ isDeepfake r = false.
Proof.
  intros Hname.
  assert (isWebcamOf (FileData f) = true) as Hweb.
  { rewrite isWebcamOf_file, Hname. apply orb_true_r. }
  rewrite analyzeImageWithML_cases.
  destruct (inference pipeline (FileData f) classifier) as [[result|e] c'];
    eexists _, _; (split; [reflexivity|]).
  - unfold processedResult. cbn in Hweb |- *. rewrite Hweb. reflexivity.
  - unfold fallbackResult. cbn in Hweb |- *. rewrite Hweb. reflexivity.
Qed.

Lemma webcam_named_file_is_never_flagged_witness :
  exists r classifier',
    analyzeImageWithML (Num := RealNumber.real)
      (Returned Samples.confident) (FileData Samples.webcamCapture) None
      = (Returned r, classifier')
    /\ isDeepfake r = false.
Proof.
  apply webcam_named_file_is_never_flagged. reflexivity.
Defined.

End AdapterCacheFacts.

(* ================================================================= *)
(** ** Verdicts of the score generator *)

Module VerdictFacts.
Import mlDetection analysisUtils RealNumber Ranges Samples.
Import AdapterFacts GeneratorFacts RealNumberFacts JsStringFacts.
Local Open Scope R_scope.

Ltac case_ifs :=
  repeat match goal with
  | |- context [if ?c then _ else _] => destruct c eqn:?
  end.

(** A name that contains "webcam-capture" contains "webcam". *)
Lemma includes_webcam_capture (s : jsstring) :
  includes s (str "webcam-capture") = true ->
  includes s (str "webcam") = true.
Proof.
  rewrite !includes_spec. intros (before & after & ->).
  exists before, (str "-capture" ++ after). reflexivity.
Qed.

(** The shape of [specificMetrics] follows the media kind. *)
Lemma specificMetrics_shape {Num : Number} (now type fileName : jsstring)
  (fileData : option Dom.File) (forceAuthentic : bool)
  (ml : MLAnalysisResult) :
  match specificMetrics
          (assemble now type fileName fileData forceAuthentic ml) with
  | OfVideo _ => type = str "video"
  | OfAudio _ => type <> str "video" /\ type = str "audio"
  | OfImage _ => type <> str "video" /\ type <> str "audio"
  end.
Proof.
  rewrite assemble_specificMetrics. unfold specificMetricsOf.
  destruct (eqb type (str "video")) eqn:Hv.
  - apply eqb_eq. exact Hv.
  - assert (type <> str "video") as Hnv.
    { intros H. apply eqb_eq in H. congruence. }
    destruct (eqb type (str "audio")) eqn:Ha.
    + split; [exact Hnv | apply eqb_eq; exact Ha].
    + split; [exact Hnv|]. intros H. apply eqb_eq in H. congruence.
Qed.

Lemma verdictOf_consistent (type fileName : jsstring)
  (forceAuthentic : bool) (ml : MLAnalysisResult) (seed : R) :
  let '(authenticity, _, isDeepfake) :=
    verdictOf type fileName forceAuthentic ml seed in
  (isDeepfake = true -> authenticity <= 50)
  /\ (isDeepfake = false -> 40 <= authenticity).
Proof.
  unfold verdictOf; cbn.
  pose proof (SIN_bound (seed * 5)) as [Hlo Hhi].
  case_ifs; split; intros Hd; try discriminate; try lra;
    repeat match goal with
    | H : Rgtb _ _ = true |- _ => apply Rgtb_spec in H
    | H : Rgtb _ _ = false |- _ => apply Rgtb_false in H
    end; lra.
Qed.

(** In exact real arithmetic, the verdict and the score never contradict
    each other: a result flagged as a deepfake has an authenticity of at
    most 50, and a result that is not flagged has one of at least 40. *)
Theorem verdict_agrees_with_authenticity (St : Type)
  (analyzeImageWithML : ImageData -> M St MLAnalysisResult)
  (now type fileName : jsstring) (fileData : option Dom.File)
  (forceAuthentic : bool) (st : St) :
  exists r st',
    generateAnalysisResultsWith analyzeImageWithML
      now type fileName fileData forceAuthentic st = (Returned r, st')
    /\ (isDeepfake r = true -> authenticity (baseMetrics r) <= 50)
    /\ (isDeepfake r = false -> 40 <= authenticity (baseMetrics r)).
Proof.
  destruct (generate_returns analyzeImageWithML now type fileName fileData
              forceAuthentic st) as (ml & st' & _ & H).
  eexists _, st'. split; [exact H|].
  pose proof (assemble_verdict now type fileName fileData forceAuthentic ml)
    as Hv.
  pose proof (verdictOf_consistent type fileName forceAuthentic
                (overrideResults forceAuthentic ml)
                (seedOf fileName fileData)) as Hc.
  destruct (verdictOf _ _ _ _ _) as [[a m] d].
  injection Hv as -> _ ->. exact Hc.
Qed.

Lemma assemble_overallResult {Num : Number} (now type fileName : jsstring)
  (fileData : option Dom.File) (forceAuthentic : bool)
  (ml : MLAnalysisResult) :
  let r := assemble now type fileName fileData forceAuthentic ml in
  overallResult r
  = if isDeepfake r then str "Potential Deepfake Detected"
    else str "Verified Authentic".
Proof.
  unfold assemble. destruct (verdictOf _ _ _ _ _) as [[a m] d]. reflexivity.
Qed.

(** The verdict when the classifier has spoken for a deepfake. *)
Lemma verdictOf_classified_deepfake (type fileName : jsstring)
  (ml : MLAnalysisResult) (seed : R) :
  includes fileName (str "webcam-capture") = false ->
  mlDetection.confidence ml > 0 ->
  mlDetection.isDeepfake ml = true ->
  verdictOf type fileName false ml seed
  = (35 + Rtrigo_def.sin (seed * 5) * 15,
     100 - (35 + Rtrigo_def.sin (seed * 5) * 15),
     true).
Proof.
  intros Hcap Hconf Hfake. apply Rgtb_spec in Hconf.
  unfold verdictOf. rewrite Hcap. cbn. rewrite Hconf, Hfake.
  case_ifs; reflexivity.
Qed.

(** In exact real arithmetic: when the model cannot be used (the load or
    the inference throws), every uploaded image or video whose name does
    not contain "webcam" is reported as a deepfake, with an authenticity
    within [20, 50]. *)
Theorem unusable_model_flags_every_upload (pipeline : outcome Detector)
  (now type : jsstring) (file : Dom.File) (classifier : Classifier)
  (error : jsstring) (classifier1 : Classifier) :
  type = str "image" \/ type = str "video" ->
  includes (Dom.name file) (str "webcam") = false ->
  inference pipeline (FileData file) classifier = (Thrown error, classifier1) ->
  exists r,
    generateAnalysisResults pipeline now type (Dom.name file) (Some file)
      false classifier = (Returned r, classifier1)
    /\ isDeepfake r = true
    /\ overallResult r = str "Potential Deepfake Detected"
    /\ 20 <= authenticity (baseMetrics r) <= 50.
Proof.
  intros Htype Hname Hfail.
  assert (includes (Dom.name file) (str "webcam-capture") = false) as Hcap.
  { apply not_true_is_false. intros H.
    apply includes_webcam_capture in H. congruence. }
  assert (isWebcamOf (FileData file) = false) as Hweb.
  { rewrite isWebcamOf_file, Hname, Hcap. reflexivity. }
  assert (usesClassifier type (Some file) false = true) as Hguard.
  { apply usesClassifier_spec. split; [eexists; reflexivity | auto]. }
  unfold generateAnalysisResults, generateAnalysisResultsWith, bind.
  rewrite classify_cases, Hguard, analyzeImageWithML_cases, Hfail.
  eexists. split; [reflexivity|].
  set (fb := fallbackResult (FileData file)).
  assert (mlDetection.confidence fb = 65 /\ mlDetection.isDeepfake fb = true)
    as [Hconf Hfake].
  { unfold fb, fallbackResult. cbn in Hweb |- *. rewrite Hweb. auto. }
  pose proof (assemble_verdict now type (Dom.name file) (Some file) false fb)
    as Hv.
  rewrite verdictOf_classified_deepfake in Hv;
    [| exact Hcap | unfold overrideResults; rewrite Hconf; lra | exact Hfake].
  injection Hv as Ha _ Hd.
  split; [exact Hd|]. split.
  - rewrite assemble_overallResult, Hd. reflexivity.
  - rewrite Ha.
    match goal with
    | |- context [Rtrigo_def.sin ?x] => destruct (SIN_bound x)
    end.
    lra.
Qed.

Lemma unusable_model_flags_every_upload_witness :
  exists r,
    generateAnalysisResults offline morning (str "image")
      (Dom.name photo) (Some photo) false None = (Returned r, None)
    /\ isDeepfake r = true
    /\ overallResult r = str "Potential Deepfake Detected"
    /\ 20 <= authenticity (baseMetrics r) <= 50.
Proof.
  eapply unusable_model_flags_every_upload.
  - left. reflexivity.
  - reflexivity.
  - reflexivity.
Defined.

End VerdictFacts.

(* ================================================================= *)
(** ** Splitting, trimming and labels *)

Module JsTextFacts.
Import JsText.

Lemma splitFrom_nonempty (sep : N) (s current : jsstring) :
  splitFrom sep current s <> [].
Proof.
  revert current. induction s as [|u rest IH]; intros current; simpl.
  - discriminate.
  - destruct (u =? sep)%N; [discriminate | apply IH].
Qed.

Lemma join_cons (sep : N) (piece : jsstring) (more : list jsstring) :
  more <> [] -> join sep (piece :: more) = piece ++ sep :: join sep more.
Proof. destruct more; [congruence | reflexivity]. Qed.

Lemma join_splitFrom (sep : N) (s current : jsstring) :
  join sep (splitFrom sep current s) = rev current ++ s.
Proof.
  revert current. induction s as [|u rest IH]; intros current; simpl.
  - symmetry. apply app_nil_r.
  - destruct (N.eqb_spec u sep) as [->|Hne].
    + rewrite join_cons by apply splitFrom_nonempty.
      rewrite IH. reflexivity.
    + rewrite IH. simpl. rewrite <- app_assoc. reflexivity.
Qed.

(** Up to the next separator, [split] yields one piece. *)
Lemma splitFrom_app (sep : N) (piece rest current : jsstring) :
  existsb (N.eqb sep) piece = false ->
  splitFrom sep current (piece ++ sep :: rest)
  = (rev current ++ piece) :: split sep rest.
Proof.
  revert current. induction piece as [|u piece IH]; intros current Hno.
  - simpl. rewrite N.eqb_refl, app_nil_r. reflexivity.
  - simpl in Hno. apply orb_false_iff in Hno as [Hu Hno].
    simpl. rewrite N.eqb_sym, Hu, IH by exact Hno.
    simpl. rewrite <- app_assoc. reflexivity.
Qed.

Lemma splitFrom_last (sep : N) (piece current : jsstring) :
  existsb (N.eqb sep) piece = false ->
  splitFrom sep current piece = [rev current ++ piece].
Proof.
  revert current. induction piece as [|u piece IH]; intros current Hno.
  - simpl. rewrite app_nil_r. reflexivity.
  - simpl in Hno. apply orb_false_iff in Hno as [Hu Hno].
    simpl. rewrite N.eqb_sym, Hu, IH by exact Hno.
    simpl. rewrite <- app_assoc. reflexivity.
Qed.

Lemma existsb_rev (f : N -> bool) (l : jsstring) :
  existsb f (rev l) = existsb f l.
Proof.
  induction l as [|u l IH]; [reflexivity|].
  simpl. rewrite existsb_app, IH. simpl.
  rewrite orb_false_r. apply orb_comm.
Qed.

(** [split] and [join] are inverse: joining the pieces of a text with the
    separator gives the text back, the pieces are free of the separator,
    and there is one piece more than there are separators in the text. *)
Theorem split_then_join (sep : N) (s : jsstring) :
  join sep (split sep s) = s
  /\ Forall (fun piece => existsb (N.eqb sep) piece = false) (split sep s)
  /\ List.length (split sep s)
     = S (List.length (filter (N.eqb sep) s)).
Proof.
  split; [apply (join_splitFrom sep s [])|].
  unfold split.
  assert (forall current,
            existsb (N.eqb sep) current = false ->
            Forall (fun piece => existsb (N.eqb sep) piece = false)
                   (splitFrom sep current s)
            /\ List.length (splitFrom sep current s)
               = S (List.length (filter (N.eqb sep) s))) as H.
  { induction s as [|u rest IH]; intros current Hcur; simpl.
    - split; [|reflexivity]. constructor; [|constructor].
      rewrite existsb_rev. exact Hcur.
    - rewrite (N.eqb_sym sep u).
      destruct (u =? sep)%N eqn:Hu.
      + destruct (IH [] eq_refl) as [Hall Hlen]. split.
        * constructor; [rewrite existsb_rev; exact Hcur | exact Hall].
        * simpl. rewrite Hlen. reflexivity.
      + apply IH. simpl. rewrite N.eqb_sym, Hu. exact Hcur. }
  apply H. reflexivity.
Qed.

(** *** Letters and white space *)

Lemma letter_is_not_white_space (u : N) :
  isLetter u = true -> isWhiteSpace u = false.
Proof.
  intros H. apply not_true_is_false. intros W.
  unfold isLetter, isLowerAscii, isUpperAscii, isWhiteSpace in *.
  rewrite ?orb_true_iff, ?andb_true_iff, ?N.leb_le, ?N.eqb_eq in *.
  lia.
Qed.

Lemma letter_is_not_space (u : N) : isLetter u = true -> isSpace u = false.
Proof.
  intros H. apply not_true_is_false. intros W.
  unfold isLetter, isLowerAscii, isUpperAscii, isSpace in *.
  rewrite ?orb_true_iff, ?andb_true_iff, ?N.leb_le, ?N.eqb_eq in *.
  lia.
Qed.

Lemma trimEnd_keeps (s : jsstring) (c : N) :
  isWhiteSpace c = false -> trimEnd (s ++ [c]) = s ++ [c].
Proof.
  intros Hc. unfold trimEnd. rewrite rev_app_distr. simpl. rewrite Hc.
  change (c :: rev s) with ([c] ++ rev s).
  rewrite rev_app_distr, rev_involutive. reflexivity.
Qed.

Lemma spaceCapitals_app (s t : jsstring) :
  spaceCapitals (s ++ t) = spaceCapitals s ++ spaceCapitals t.
Proof. apply flat_map_app. Qed.

(** A run of letters, once spaced, still ends in its last letter. *)
Lemma spaceCapitals_last (s : jsstring) :
  Forall (fun u => isLetter u = true) s ->
  s = [] \/
  exists front c, spaceCapitals s = front ++ [c] /\ isLetter c = true.
Proof.
  intros Hall. destruct s as [|u s]; [left; reflexivity | right].
  destruct (@exists_last _ (u :: s)) as (front & c & Hs); [discriminate|].
  rewrite Hs in Hall |- *. apply Forall_app in Hall as [_ Hc].
  apply Forall_inv in Hc.
  rewrite spaceCapitals_app. simpl.
  destruct (isUpperAscii c).
  - exists (spaceCapitals front ++ [32%N]), c.
    rewrite <- app_assoc. simpl. auto.
  - exists (spaceCapitals front), c. auto.
Qed.

Lemma spaceCapitals_unspaced (s : jsstring) :
  Forall (fun u => isLetter u = true) s ->
  filter (fun u => negb (isSpace u)) (spaceCapitals s) = s.
Proof.
  induction 1 as [|u rest Hu _ IH]; [reflexivity|].
  change (spaceCapitals (u :: rest))
    with ((if isUpperAscii u then [32%N; u] else [u]) ++ spaceCapitals rest).
  rewrite filter_app, IH. apply letter_is_not_space in Hu.
  destruct (isUpperAscii u); simpl; rewrite Hu; reflexivity.
Qed.

(** The label of a key made of ASCII letters: [trim] only removes the space
    put before a leading capital. *)
Lemma trim_spaceCapitals (first : N) (rest : jsstring) :
  isLetter first = true ->
  Forall (fun u => isLetter u = true) rest ->
  trim (spaceCapitals (first :: rest)) = first :: spaceCapitals rest.
Proof.
  intros Hfirst Hrest.
  pose proof (letter_is_not_white_space first Hfirst) as Hws.
  assert (trimStart (spaceCapitals (first :: rest))
          = first :: spaceCapitals rest) as Hstart.
  { change (spaceCapitals (first :: rest))
      with ((if isUpperAscii first then [32%N; first] else [first])
            ++ spaceCapitals rest).
    destruct (isUpperAscii first); simpl; rewrite Hws; reflexivity. }
  unfold trim. rewrite Hstart.
  destruct (spaceCapitals_last rest Hrest)
    as [-> | (front & c & Hsp & Hc)].
  - apply (trimEnd_keeps [] first). exact Hws.
  - rewrite Hsp. apply (trimEnd_keeps (first :: front) c).
    apply letter_is_not_white_space. exact Hc.
Qed.

End JsTextFacts.

(* ================================================================= *)
(** ** The downloadable report *)

Module ReportFacts.
Import analysisUtils JsText Report JsTextFacts JsStringFacts GeneratorFacts.

Section Labels.
Context {Num : Number}.
Variable hostUpper : N -> jsstring.

Lemma upperUnit_letter (u : N) :
  isLetter u = true ->
  upperUnit hostUpper u = [if isLowerAscii u then (u - 32)%N else u].
Proof.
  intros H. unfold upperUnit. destruct (isLowerAscii u) eqn:Hl;
    [reflexivity|].
  unfold isLetter in H. rewrite Hl in H. simpl in H.
  unfold isUpperAscii in H. apply andb_true_iff in H as [_ H].
  apply N.leb_le in H.
  destruct (N.ltb_spec u 128); [reflexivity | lia].
Qed.

Lemma capitalize_cons (first : N) (rest : jsstring) :
  capitalize hostUpper (first :: rest) = upperUnit hostUpper first ++ rest.
Proof.
  unfold capitalize, toUpperCase. simpl. rewrite app_nil_r. reflexivity.
Qed.

End Labels.

(** The label the report prints for a key made of ASCII letters is the key
    with its first letter in upper case and a space before every later
    capital; so the label without its spaces is the capitalized key, and
    the label neither starts nor ends with a space. *)
Theorem report_label_of_key (hostUpper : N -> jsstring) (first : N)
  (rest : jsstring) :
  isLetter first = true ->
  Forall (fun u => isLetter u = true) rest ->
  let label := capitalize hostUpper (formattedKeyOf (first :: rest)) in
  label
  = (if isLowerAscii first then (first - 32)%N else first)
      :: spaceCapitals rest
  /\ filter (fun u => negb (isSpace u)) label
     = capitalize hostUpper (first :: rest)
  /\ trim label = label.
Proof.
  intros Hfirst Hrest label. unfold label, formattedKeyOf.
  rewrite (trim_spaceCapitals first rest Hfirst Hrest), !capitalize_cons.
  rewrite (upperUnit_letter hostUpper first Hfirst). simpl.
  set (upper := if isLowerAscii first then (first - 32)%N else first).
  assert (isLetter upper = true) as Hupper.
  { unfold upper. destruct (isLowerAscii first) eqn:Hl; [|exact Hfirst].
    unfold isLetter, isLowerAscii, isUpperAscii in *.
    rewrite ?orb_true_iff, ?andb_true_iff, ?N.leb_le in *. lia. }
  split; [reflexivity|]. split.
  - rewrite (letter_is_not_space upper Hupper). simpl.
    rewrite (spaceCapitals_unspaced rest Hrest). reflexivity.
  - unfold trim. simpl.
    rewrite (letter_is_not_white_space upper Hupper).
    destruct (spaceCapitals_last rest Hrest)
    as [-> | (front & c & Hsp & Hc)].
    + apply (trimEnd_keeps [] upper).
      apply letter_is_not_white_space. exact Hupper.
    + rewrite Hsp. apply (trimEnd_keeps (upper :: front) c).
      apply letter_is_not_white_space. exact Hc.
Qed.

Lemma report_label_of_key_witness :
  let label :=
    capitalize (fun u => [u]) (formattedKeyOf (str "audioVideoSync")) in
  label = str "Audio Video Sync"
  /\ filter (fun u => negb (isSpace u)) label
     = capitalize (fun u => [u]) (str "audioVideoSync")
  /\ trim label = label.
Proof.
  apply (report_label_of_key (fun u => [u]) 97 (str "udioVideoSync")).
  - reflexivity.
  - repeat constructor.
Defined.

Section Lines.
Context {Num : Number}.
Variable toLocaleString : jsstring -> jsstring.
Variable hostUpper : N -> jsstring.

Lemma fold_left_append (f : jsstring * num -> jsstring)
  (entries : list (jsstring * num)) (report : jsstring) :
  fold_left (fun report entry => report ++ f entry) entries report
  = report ++ flat_map f entries.
Proof.
  revert report. induction entries as [|entry rest IH]; intros report; simpl.
  - symmetry. apply app_nil_r.
  - rewrite IH, <- app_assoc. reflexivity.
Qed.

Lemma metricEntries_values (m : SpecificMetrics) :
  map snd (metricEntries m) = metricValues m.
Proof. destruct m; reflexivity. Qed.

(** The text of the report: the head, one line per metric in the order of
    the keys, the tail. *)
Lemma generateDownloadableReport_text (results : AnalysisResult) :
  generateDownloadableReport toLocaleString hostUpper results
  = reportHead toLocaleString hostUpper results
    ++ flat_map (metricLine hostUpper)
         (metricEntries (specificMetrics results))
    ++ reportTail results.
Proof.
  unfold generateDownloadableReport.
  rewrite fold_left_append, <- app_assoc. reflexivity.
Qed.

End Lines.

(** Every one of the five media-specific metrics has its own line in the
    report: the label of its key, a colon, the rounded value, a percent sign
    and a line feed; the lines follow each other in the order of the keys,
    between the head and the tail of the report. *)
Theorem report_lists_every_metric {Num : Number}
  (toLocaleString : jsstring -> jsstring) (hostUpper : N -> jsstring)
  (results : AnalysisResult) :
  let entries := metricEntries (specificMetrics results) in
  let report := generateDownloadableReport toLocaleString hostUpper results in
  List.length entries = 5%nat
  /\ map snd entries = metricValues (specificMetrics results)
  /\ report
     = reportHead toLocaleString hostUpper results
       ++ flat_map
            (fun entry =>
               capitalize hostUpper (formattedKeyOf (fst entry))
               ++ str ": " ++ toString (round (snd entry)) ++ str "%" ++ nl)
            entries
       ++ reportTail results
  /\ Forall
       (fun entry =>
          includes report
            (capitalize hostUpper (formattedKeyOf (fst entry))
             ++ str ": " ++ toString (round (snd entry)) ++ str "%" ++ nl)
          = true)
       entries.
Proof.
  intros entries report.
  assert (forall entry,
            metricLine hostUpper entry
            = capitalize hostUpper (formattedKeyOf (fst entry))
              ++ str ": " ++ toString (round (snd entry)) ++ str "%" ++ nl)
    as Hline.
  { intros [key value]. reflexivity. }
  assert (report
          = reportHead toLocaleString hostUpper results
            ++ flat_map (metricLine hostUpper) entries
            ++ reportTail results) as Htext.
  { apply generateDownloadableReport_text. }
  split; [unfold entries; destruct (specificMetrics results); reflexivity|].
  split; [apply metricEntries_values|].
  split.
  - rewrite Htext. f_equal. f_equal.
    apply flat_map_ext. exact Hline.
  - apply Forall_forall. intros entry Hin.
    apply in_split in Hin as (before & after & Hsplit).
    apply includes_spec. rewrite Htext, Hsplit, flat_map_app.
    change (flat_map (metricLine hostUpper) (entry :: after))
      with (metricLine hostUpper entry
            ++ flat_map (metricLine hostUpper) after).
    rewrite <- Hline.
    exists (reportHead toLocaleString hostUpper results
            ++ flat_map (metricLine hostUpper) before),
           (flat_map (metricLine hostUpper) after ++ reportTail results).
    rewrite <- !app_assoc. reflexivity.
Qed.

End ReportFacts.

(* ================================================================= *)
(** ** Rounded percentages *)

Module RoundingFacts.
Import mlDetection analysisUtils RealNumber RealNumberFacts GeneratorFacts.
Local Open Scope R_scope.



End RoundingFacts.

(* ================================================================= *)
(** ** [safeAccess] *)

Module SafeAccessFacts.
Import analysisUtils JsText JsValue.

Section Facts.
Context {Num : Number}.
Variable inherited : Value -> jsstring -> Value.
Variable St : Type.


Lemma accessStep_falsy (prev : Value) (curr : jsstring) (st : St) :
  isTruthy prev = false ->
  accessStep inherited prev curr st = (Returned VUndefined, st).
Proof. intros H. unfold accessStep. rewrite H. reflexivity. Qed.


Lemma reduce_falsy (segments : list jsstring) (start : Value) (st : St) :
  segments <> [] ->
  isTruthy start = false ->
  reduce (accessStep inherited (St := St)) segments start st
  = (Returned VUndefined, st).
Proof.
  intros Hne Hfalsy. destruct segments as [|curr rest]; [congruence|].
  simpl. unfold bind. rewrite (accessStep_falsy start curr st Hfalsy).
  clear. induction rest as [|next rest IH]; [reflexivity|].
  simpl. unfold bind.
  rewrite (accessStep_falsy VUndefined next st eq_refl). exact IH.
Qed.

End Facts.


(** The paths the page and the metrics card read.  On a result they give
    the fields themselves, also when a field is [false] or 0, and never
    the default; before any analysis, when the page holds [null], they give
    the default. *)
Theorem safeAccess_reads_the_result {Num : Number}
  (inherited : Value -> jsstring -> Value) (St : Type)
  (r : AnalysisResult) (defaultValue : Value) (st : St) :
  let read := fun obj path =>
    safeAccess inherited obj path defaultValue st in
  read (ofResult r) (str "isDeepfake")
    = (Returned (VBoolean (isDeepfake r)), st)
  /\ read (ofResult r) (str "overallResult")
     = (Returned (VString (overallResult r)), st)
  /\ read (ofResult r) (str "confidenceInterval")
     = (Returned (VString (confidenceInterval r)), st)
  /\ read (ofResult r) (str "detailedExplanation")
     = (Returned (VString (detailedExplanation r)), st)
  /\ read (ofResult r) (str "baseMetrics.authenticity")
     = (Returned (VNumber (authenticity (baseMetrics r))), st)
  /\ read (ofResult r) (str "baseMetrics.manipulationProbability")
     = (Returned (VNumber (manipulationProbability (baseMetrics r))), st)
  /\ read (ofResult r) (str "baseMetrics.confidence")
     = (Returned (VNumber (confidence (baseMetrics r))), st)
  /\ (forall path,
        safeAccess inherited (ofResultOrNull None) path defaultValue st
        = (Returned defaultValue, st)).
Proof.
  intros read. repeat split; try reflexivity.
  intros path. unfold safeAccess, tryCatch, bind, ret.
  cbn [ofResultOrNull].
  rewrite (reduce_falsy inherited St (split 46 path) VNull st).
  - reflexivity.
  - apply JsTextFacts.splitFrom_nonempty.
  - reflexivity.
Qed.

End SafeAccessFacts.

(* ================================================================= *)
(** ** The metrics card *)

Module AnalysisMetricsFacts.
Import mlDetection analysisUtils RealNumber Ranges.
Import AnalysisMetrics GeneratorFacts RealNumberFacts.
Local Open Scope R_scope.

(** The keys the card takes to be good when high. *)
Lemma isGoodWhenHigh_keys :
  map isGoodWhenHigh
    [str "frameConsistency"; str "facialAnomaly"; str "audioVideoSync";
     str "temporalCoherence"; str "neuralInconsistency"]
  = [true; false; true; false; false]
  /\ map isGoodWhenHigh
       [str "voicePrintAuthenticity"; str "backgroundNoiseAnalysis";
        str "frequencyAnomalies"; str "prosodyConsistency";
        str "spectrogramPatterns"]
     = [true; false; false; true; false]
  /\ map isGoodWhenHigh
       [str "metadataConsistency"; str "pixelAnomalies";
        str "lightingConsistency"; str "textureAnalysis";
        str "neuralInconsistency"]
     = [true; false; true; false; false].
Proof. repeat split. Qed.

(** In exact real arithmetic: the colours of "Authenticity Score" and of
    "Manipulation Probability" always agree, since the second score is the
    complement of the first and the thresholds are 70 and 30. *)
Theorem core_indicators_agree (St : Type)
  (analyzeImageWithML : ImageData -> M St MLAnalysisResult)
  (now type fileName : jsstring) (fileData : option Dom.File)
  (forceAuthentic : bool) (st : St) :
  exists r st',
    generateAnalysisResultsWith analyzeImageWithML
      now type fileName fileData forceAuthentic st = (Returned r, st')
    /\ authenticityLooksGood (authenticity (baseMetrics r))
       = manipulationLooksGood (manipulationProbability (baseMetrics r)).
Proof.
  destruct (generate_returns analyzeImageWithML now type fileName fileData
              forceAuthentic st) as (ml & st' & _ & H).
  eexists _, st'. split; [exact H|].
  rewrite assemble_complement.
  unfold authenticityLooksGood, manipulationLooksGood. cbn [lit sub gt real].
  set (a := authenticity _).
  destruct (Rgtb a 70) eqn:Ha; symmetry.
  - apply Rgtb_spec in Ha. apply Rgtb_spec. lra.
  - apply Rgtb_false in Ha. apply Rgtb_false. lra.
Qed.

Ltac sine_bound :=
  match goal with
  | |- context [Rtrigo_def.sin ?x] => destruct (SIN_bound x)
  end.

Ltac decide_good :=
  match goal with
  | |- Rgtb _ _ = true => apply Rgtb_spec; sine_bound; lra
  | |- Rgtb _ _ = false => apply Rgtb_false; sine_bound; lra
  end.

(** In exact real arithmetic: for a forced-authentic result, the card draws
    every metric in the success colour but one.  For an image,
    "texture Analysis" is drawn as bad, and for a video "temporal
    Coherence": their keys carry none of the words the card takes for
    good-when-high, so their values, 88 +- 5, are held against the
    threshold "below 30".  For audio all five are drawn as good. *)
Theorem forced_authentic_row_colours (St : Type)
  (analyzeImageWithML : ImageData -> M St MLAnalysisResult)
  (now type fileName : jsstring) (fileData : option Dom.File) (st : St) :
  exists r,
    generateAnalysisResultsWith analyzeImageWithML
      now type fileName fileData true st = (Returned r, st)
    /\ map (fun row => (label row, good row)) (rows r)
       = if eqb type (str "video") then
           [(str "frame Consistency", true);
            (str "facial Anomaly", true);
            (str "audio Video Sync", true);
            (str "temporal Coherence", false);
            (str "neural Inconsistency", true)]
         else if eqb type (str "audio") then
           [(str "voice Print Authenticity", true);
            (str "background Noise Analysis", true);
            (str "frequency Anomalies", true);
            (str "prosody Consistency", true);
            (str "spectrogram Patterns", true)]
         else
           [(str "metadata Consistency", true);
            (str "pixel Anomalies", true);
            (str "lighting Consistency", true);
            (str "texture Analysis", false);
            (str "neural Inconsistency", true)].
Proof.
  assert (generateAnalysisResultsWith analyzeImageWithML
            now type fileName fileData true st
          = (Returned (assemble now type fileName fileData true
                         authenticResults), st)) as Hrun.
  { unfold generateAnalysisResultsWith, bind. rewrite classify_cases.
    assert (usesClassifier type fileData true = false) as ->.
    { unfold usesClassifier. destruct fileData; [|reflexivity].
      apply andb_false_r. }
    destruct fileData; reflexivity. }
  eexists. split; [exact Hrun|].
  unfold rows. rewrite assemble_specificMetrics. unfold specificMetricsOf.
  destruct (eqb type (str "video")); [|destruct (eqb type (str "audio"))];
    cbn [Report.metricEntries map rowOf label good];
    repeat match goal with
    | |- _ :: _ = _ :: _ => apply (f_equal2 (@cons _))
    | |- (_, _) = (_, _) => apply f_equal2
    | |- [] = [] => reflexivity
    | |- formattedKeyOf _ = _ => reflexivity
    | |- isGoodValue ?k _ = _ =>
        unfold isGoodValue;
        let b := eval vm_compute in (isGoodWhenHigh k) in
        change (isGoodWhenHigh k) with b;
        cbn; decide_good
    end.
Qed.

End AnalysisMetricsFacts.

(* ================================================================= *)
(** ** Webcam captures *)

Module WebcamFacts.
Import mlDetection analysisUtils JsText WebcamAnalyzer.
Import GeneratorFacts JsTextFacts.

(** With [forceAuthentic] the classifier step is skipped. *)
Lemma generate_forced_run {Num : Number} (St : Type)
  (analyzeImageWithML : ImageData -> M St MLAnalysisResult)
  (now type fileName : jsstring) (fileData : option Dom.File) (st : St) :
  generateAnalysisResultsWith analyzeImageWithML
    now type fileName fileData true st
  = (Returned (assemble now type fileName fileData true defaultResults), st).
Proof.
  unfold generateAnalysisResultsWith, bind. rewrite classify_cases.
  assert (usesClassifier type fileData true = false) as ->.
  { unfold usesClassifier. destruct fileData; [|reflexivity].
    apply andb_false_r. }
  destruct fileData; reflexivity.
Qed.

(** The header of a data URL is read back: from
    "data:<mime>;base64,<payload>" the handler extracts <mime> as the MIME
    type and hands <payload> to the base64 decoder, provided <mime> holds
    no comma, colon or semicolon and <payload> no comma. *)
Theorem data_url_is_read_back (mime payload : jsstring) :
  existsb (N.eqb 44) mime = false ->
  existsb (N.eqb 58) mime = false ->
  existsb (N.eqb 59) mime = false ->
  existsb (N.eqb 44) payload = false ->
  let imageSrc := str "data:" ++ mime ++ str ";base64," ++ payload in
  mimeStringOf imageSrc = Returned mime
  /\ second (split 44 imageSrc) = Some payload.
Proof.
  intros Hcomma Hcolon Hsemi Hpayload imageSrc.
  assert (split 44 imageSrc
          = (str "data:" ++ mime ++ str ";base64") :: split 44 payload)
    as Hsplit.
  { unfold imageSrc, split.
    change (str "data:" ++ mime ++ str ";base64," ++ payload)
      with (str "data:" ++ mime ++ str ";base64" ++ 44%N :: payload).
    rewrite !app_assoc, <- (app_assoc (str "data:")).
    apply (splitFrom_app 44 (str "data:" ++ mime ++ str ";base64")
             payload []).
    rewrite !existsb_app, Hcomma. reflexivity. }
  split.
  - unfold mimeStringOf. rewrite Hsplit.
    assert (split 58 (str "data:" ++ mime ++ str ";base64")
            = [str "data"; mime ++ str ";base64"]) as ->.
    { unfold split.
      change (str "data:" ++ mime ++ str ";base64")
        with (str "data" ++ 58%N :: (mime ++ str ";base64")).
      rewrite (splitFrom_app 58 (str "data") (mime ++ str ";base64") [])
        by reflexivity.
      unfold split. rewrite splitFrom_last; [reflexivity|].
      rewrite existsb_app, Hcolon. reflexivity. }
    cbn [second nth_error].
    assert (split 59 (mime ++ str ";base64") = [mime; str "base64"]) as ->.
    { unfold split.
      change (mime ++ str ";base64") with (mime ++ 59%N :: str "base64").
      rewrite (splitFrom_app 59 mime (str "base64") []) by exact Hsemi.
      reflexivity. }
    reflexivity.
  - rewrite Hsplit. unfold split.
    rewrite (splitFrom_last 44 payload []) by exact Hpayload. reflexivity.
Qed.

Lemma data_url_is_read_back_witness :
  let imageSrc := str "data:image/jpeg;base64,/9j/4AAQSkZJRg==" in
  mimeStringOf imageSrc = Returned (str "image/jpeg")
  /\ second (split 44 imageSrc) = Some (str "/9j/4AAQSkZJRg==").
Proof.
  apply (data_url_is_read_back (str "image/jpeg") (str "/9j/4AAQSkZJRg=="));
    reflexivity.
Defined.

(** Whatever the camera shows, a capture ends in the same verdict.  The
    handler never throws and never runs the classifier (its cache is left
    as it was).  If the screenshot cannot be decoded it shows "Processing
    error"; otherwise it hands over a result with [isDeepfake = false], the
    title "Analysis Complete - Authentic Content", the scores 95, 5 and 98
    and the image metrics 95, 10, 98, 97 and 8, of media type "image" and
    file name "webcam-capture.jpg".  The notice "Analysis failed" of the
    inner [catch] is never shown. *)
Theorem webcam_capture_is_always_authentic {Num : Number}
  (atob : option jsstring -> outcome jsstring)
  (pipeline : outcome Detector) (now imageSrc : jsstring)
  (classifier : Classifier) :
  exists ending,
    handleAnalyzeWebcam atob pipeline now imageSrc classifier
      = (Returned ending, classifier)
    /\ match atob (second (split 44 imageSrc)), mimeStringOf imageSrc with
       | Returned byteString, Returned _ =>
           exists r,
             ending = Completed r
             /\ isDeepfake r = false
             /\ overallResult r = str "Analysis Complete - Authentic Content"
             /\ baseMetrics r
                = {| authenticity := lit 95;
                     manipulationProbability := lit 5;
                     confidence := lit 98 |}
             /\ specificMetrics r
                = OfImage
                    {| Image.metadataConsistency := lit 95;
                       Image.pixelAnomalies := lit 10;
                       Image.lightingConsistency := lit 98;
                       Image.textureAnalysis := lit 97;
                       Image.neuralInconsistency := lit 8 |}
             /\ mediaType r = str "image"
             /\ fileName r = str "webcam-capture.jpg"
       | _, _ => ending = Failed (str "Processing error")
       end.
Proof.
  unfold handleAnalyzeWebcam, tryCatch, bind, await.
  destruct (atob (second (split 44 imageSrc))) as [byteString|e];
    [|eexists; split; reflexivity].
  destruct (mimeStringOf imageSrc) as [mime|e];
    [|eexists; split; reflexivity].
  unfold generateAnalysisResults. rewrite generate_forced_run.
  eexists. split; [reflexivity|].
  eexists. repeat split.
Qed.

End WebcamFacts.

(* ================================================================= *)
(** ** The interval shown after a webcam capture *)

Module WebcamIntervalFacts.
Import mlDetection analysisUtils JsText WebcamAnalyzer.
Import RealNumber RealNumberFacts GeneratorFacts WebcamFacts Samples.
Local Open Scope R_scope.

(** The numeral of an integer from 10 to 89 starts with a digit below 9. *)
Lemma ZtoString_leading_digit (z : Z) :
  (10 <= z <= 89)%Z ->
  exists digit more, ZtoString z = digit :: more /\ (digit < 57)%N.
Proof.
  intros [Hlo Hhi]. destruct z as [|p|p]; try lia.
  do 7 (try destruct p as [p|p|]); try lia;
    eexists _, _; (split; [reflexivity | reflexivity]).
Qed.

(** In exact real arithmetic: the result handed over after a capture has
    the confidence 98, but its [confidenceInterval] is still the one the
    generator derived from its own confidence, a value within [60, 90].
    So the interval shown is never "90%-106%", the interval of the
    confidence shown beside it. *)
Theorem webcam_interval_is_stale
  (atob : option jsstring -> outcome jsstring)
  (pipeline : outcome Detector) (now imageSrc : jsstring)
  (classifier : Classifier) (byteString mime : jsstring) :
  atob (second (split 44 imageSrc)) = Returned byteString ->
  mimeStringOf imageSrc = Returned mime ->
  exists r c,
    handleAnalyzeWebcam atob pipeline now imageSrc classifier
      = (Returned (Completed r), classifier)
    /\ confidence (baseMetrics r) = 98
    /\ 60 <= c <= 90
    /\ confidenceInterval r
       = rounded (c - 8) ++ str "%-" ++ rounded (c + 8) ++ str "%"
    /\ confidenceInterval r
       <> rounded (confidence (baseMetrics r) - 8) ++ str "%-"
          ++ rounded (confidence (baseMetrics r) + 8) ++ str "%".
Proof.
  intros Hatob Hmime.
  unfold handleAnalyzeWebcam, tryCatch, bind, await.
  rewrite Hatob, Hmime.
  unfold generateAnalysisResults. rewrite generate_forced_run.
  set (file := capturedFile byteString).
  set (r0 := assemble now (str "image") (Dom.name file) (Some file) true
               defaultResults).
  exists (markAuthentic r0), (confidence (baseMetrics r0)).
  split; [reflexivity|]. split; [reflexivity|].
  assert (60 <= confidence (baseMetrics r0) <= 90) as Hc.
  { unfold r0. rewrite assemble_confidence. cbn [lit add mul sin real].
    match goal with
    | |- context [Rtrigo_def.sin ?x] => destruct (SIN_bound x)
    end.
    lra. }
  split; [exact Hc|].
  assert (confidenceInterval (markAuthentic r0)
          = rounded (confidence (baseMetrics r0) - 8) ++ str "%-"
            ++ rounded (confidence (baseMetrics r0) + 8) ++ str "%")
    as Hinterval.
  { change (confidenceInterval (markAuthentic r0))
      with (confidenceInterval r0).
    exact (assemble_confidenceInterval now (str "image") (Dom.name file)
             (Some file) true defaultResults). }
  split; [exact Hinterval|].
  rewrite Hinterval. set (c := confidence (baseMetrics r0)) in *.
  change (confidence (baseMetrics (markAuthentic r0))) with 98.
  unfold rounded. cbn [toString round real].
  set (z := Int_part (c - 8 + / 2)).
  change (Rround (c - 8)) with (IZR z).
  assert (52 <= z <= 82)%Z as Hz.
  { destruct (base_Int_part (c - 8 + / 2)) as [H1 H2]. fold z in H1, H2.
    split; apply Z.lt_succ_r, lt_IZR; rewrite succ_IZR; lra. }
  rewrite RtoString_integer.
  assert (Rround (98 - 8) = 90) as -> by (apply Rround_spec; lra).
  rewrite (RtoString_integer 90).
  destruct (ZtoString_leading_digit z) as (digit & more & -> & Hdigit);
    [lia|].
  change (ZtoString 90) with [57%N; 48%N].
  cbn [app]. intros Heq. injection Heq as -> _. lia.
Qed.

Lemma webcam_interval_is_stale_witness :
  let atob := fun _ : option jsstring => Returned (str "JFIF") in
  let imageSrc := str "data:image/jpeg;base64,SkZJRg==" in
  exists r c,
    handleAnalyzeWebcam atob offline morning imageSrc None
      = (Returned (Completed r), None)
    /\ confidence (baseMetrics r) = 98
    /\ 60 <= c <= 90
    /\ confidenceInterval r
       = rounded (c - 8) ++ str "%-" ++ rounded (c + 8) ++ str "%"
    /\ confidenceInterval r
       <> rounded (confidence (baseMetrics r) - 8) ++ str "%-"
          ++ rounded (confidence (baseMetrics r) + 8) ++ str "%".
Proof.
  intros atob imageSrc.
  apply (webcam_interval_is_stale atob offline morning imageSrc None
           (str "JFIF") (str "image/jpeg")); reflexivity.
Defined.

End WebcamIntervalFacts.

(* ================================================================= *)
(** ** The page: file types and the selected file *)

Module AnalyzePageFacts.
Import mlDetection analysisUtils AnalyzePage JsStringFacts.

Section Facts.
Context {Num : Number}.

Lemma isTab_spec (value : jsstring) :
  isTab value = true <->
  value = str "video" \/ value = str "audio" \/ value = str "image".
Proof.
  unfold isTab. rewrite !orb_true_iff, !eqb_eq. tauto.
Qed.

Lemma eqb_sym (a b : jsstring) : eqb a b = eqb b a.
Proof.
  destruct (eqb a b) eqn:Hab, (eqb b a) eqn:Hba; try reflexivity.
  - apply eqb_eq in Hab. subst. rewrite (proj2 (eqb_eq b b) eq_refl) in Hba.
    discriminate.
  - apply eqb_eq in Hba. subst. rewrite (proj2 (eqb_eq a a) eq_refl) in Hab.
    discriminate.
Qed.

(** The table of line 52, read by key. *)
Lemma typesFor_spec (tab : jsstring) (types : list jsstring) :
  typesFor tab validTypes = Some types <->
  (tab = str "video"
   /\ types = [str "video/mp4"; str "video/webm"; str "video/quicktime"])
  \/ (tab = str "audio"
      /\ types = [str "audio/mpeg"; str "audio/wav"; str "audio/ogg"])
  \/ (tab = str "image"
      /\ types = [str "image/jpeg"; str "image/png"; str "image/gif"]).
Proof.
  unfold validTypes. cbn [typesFor].
  destruct (eqb (str "video") tab) eqn:Hv.
  { apply eqb_eq in Hv. subst tab. split.
    - intros [= <-]. auto.
    - intros [[_ ->] | [[[=] _] | [[=] _]]]. reflexivity. }
  destruct (eqb (str "audio") tab) eqn:Ha.
  { apply eqb_eq in Ha. subst tab. split.
    - intros [= <-]. auto.
    - intros [[[=] _] | [[_ ->] | [[=] _]]]. reflexivity. }
  destruct (eqb (str "image") tab) eqn:Hi.
  { apply eqb_eq in Hi. subst tab. split.
    - intros [= <-]. auto.
    - intros [[[=] _] | [[[=] _] | [_ ->]]]. reflexivity. }
  split; [discriminate|].
  intros [[-> _] | [[-> _] | [-> _]]]; discriminate.
Qed.

Lemma listIncludes_spec (array : list jsstring) (x : jsstring) :
  listIncludes array x = true <-> In x array.
Proof.
  unfold listIncludes. rewrite existsb_exists. split.
  - intros (y & Hin & Heq). apply eqb_eq in Heq. subst. exact Hin.
  - intros Hin. exists x. split; [exact Hin | apply eqb_eq; reflexivity].
Qed.

(** A type that a tab accepts starts with the name of the tab and a
    slash. *)
Lemma accepted_type_has_prefix (tab : jsstring) (types : list jsstring)
  (t : jsstring) :
  typesFor tab validTypes = Some types ->
  listIncludes types t = true ->
  startsWith t (tab ++ str "/") = true.
Proof.
  intros Htab Hin. apply listIncludes_spec in Hin.
  apply typesFor_spec in Htab
    as [[-> ->] | [[-> ->] | [-> ->]]];
    simpl in Hin; intuition (subst; reflexivity).
Qed.

Lemma initial_consistent : consistent initial.
Proof. split; [reflexivity | discriminate]. Qed.

Lemma handle_consistent (event : Event) (st : State) :
  fromThePage event ->
  consistent st ->
  exists st', handle event st = Returned st' /\ consistent st'.
Proof.
  intros Hevent [Htab Hfile].
  destruct event as [value|picked| |results| | |results]; simpl.
  - eexists. split; [reflexivity|]. split; [exact Hevent | discriminate].
  - unfold handleFileSelect. destruct picked as [picked|].
    + apply isTab_spec in Htab as Hcases.
      assert (exists types, typesFor (activeTab st) validTypes = Some types)
        as [types Htypes].
      { destruct Hcases as [-> | [-> | ->]]; eexists; reflexivity. }
      rewrite Htypes.
      destruct (listIncludes types (type picked)) eqn:Hin; simpl.
      * eexists. split; [reflexivity|]. split; [exact Htab|].
        simpl. intros p [= <-]. exists types. auto.
      * eexists. split; [reflexivity|]. split; assumption.
    + eexists. split; [reflexivity|]. split; assumption.
  - eexists. split; [reflexivity|]. split; [exact Htab | discriminate].
  - eexists. split; [reflexivity|]. split; assumption.
  - eexists. split; [reflexivity|]. unfold handleAnalyzeStart.
    destruct (selectedFile st) eqn:Hsel; split; simpl; try assumption.
    intros p Hp. apply Hfile. congruence.
  - eexists. split; [reflexivity|]. split; assumption.
  - eexists. split; [reflexivity|]. split; assumption.
Qed.

End Facts.

(** A file is taken only if its MIME type is on the list of the active
    tab, and then the type starts with the name of the tab and a slash; any
    other file is refused with the notice "Invalid file type" and leaves
    the selection as it was.  A tab that is none of "video", "audio" and
    "image" makes the handler throw. *)
Theorem file_select_checks_the_type {Num : Number} (picked : Picked)
  (st : State) :
  match typesFor (activeTab st) validTypes with
  | Some types =>
      isTab (activeTab st) = true
      /\ if listIncludes types (type picked) then
           startsWith (type picked) (activeTab st ++ str "/") = true
           /\ exists st',
                handleFileSelect (Some picked) st = Returned (st', None)
                /\ selectedFile st' = Some picked
                /\ activeTab st' = activeTab st
         else
           handleFileSelect (Some picked) st
           = Returned (st, Some (str "Invalid file type"))
  | None =>
      isTab (activeTab st) = false
      /\ exists e, handleFileSelect (Some picked) st = Thrown e
  end.
Proof.
  unfold handleFileSelect.
  destruct (typesFor (activeTab st) validTypes) as [types|] eqn:Htypes.
  - split.
    + apply isTab_spec. apply typesFor_spec in Htypes. tauto.
    + destruct (listIncludes types (type picked)) eqn:Hin; simpl.
      * split; [exact (accepted_type_has_prefix _ _ _ Htypes Hin)|].
        eexists. split; [reflexivity|]. split; reflexivity.
      * reflexivity.
  - split; [|eexists; reflexivity].
    apply not_true_is_false. intros Htab. apply isTab_spec in Htab.
    destruct Htab as [H | [H | H]]; rewrite H in Htypes; discriminate.
Qed.

(** Whatever the user does, in whatever order (changing tab, picking files
    of any type, resetting, starting analyses, receiving results), no
    handler throws, the active tab is one of the three, and a file that is
    selected has a MIME type that starts with the name of the active tab
    and a slash.  So [generateAnalysisResults] is only called from the
    upload button with a media kind and a file of that kind. *)
Theorem selected_file_fits_the_tab {Num : Number} (events : list Event) :
  Forall fromThePage events ->
  exists st,
    run events initial = Returned st
    /\ isTab (activeTab st) = true
    /\ forall picked,
         selectedFile st = Some picked ->
         startsWith (type picked) (activeTab st ++ str "/") = true
         /\ forall pipeline now,
              handleAnalyzeCall pipeline now st
              = Some (generateAnalysisResults pipeline now (activeTab st)
                        (Dom.name (file picked)) (Some (file picked)) false).
Proof.
  intros Hevents.
  assert (forall st, consistent st ->
            exists st', run events st = Returned st' /\ consistent st')
    as Hrun.
  { induction Hevents as [|event rest Hevent _ IH]; intros st Hst; simpl.
    - exists st. auto.
    - destruct (handle_consistent event st Hevent Hst) as (st1 & -> & Hst1).
      apply IH. exact Hst1. }
  destruct (Hrun initial initial_consistent) as (st & Hst & Htab & Hfile).
  exists st. split; [exact Hst|]. split; [exact Htab|].
  intros picked Hsel. destruct (Hfile picked Hsel) as (types & Htypes & Hin).
  split; [exact (accepted_type_has_prefix _ _ _ Htypes Hin)|].
  intros pipeline now. unfold handleAnalyzeCall. rewrite Hsel. reflexivity.
Qed.

Lemma selected_file_fits_the_tab_witness :
  let png := {| file := {| Dom.name := str "cat.png"; Dom.size := 4096 |};
                type := str "image/png" |} in
  let mp4 := {| file := {| Dom.name := str "clip.mp4"; Dom.size := 90000 |};
                type := str "video/mp4" |} in
  exists st,
    run (Num := RealNumber.real)
      [FileSelect (Some mp4); TabChange (str "image");
       FileSelect (Some mp4); FileSelect (Some png); AnalyzeStart]
      initial = Returned st
    /\ isTab (activeTab st) = true
    /\ forall picked,
         selectedFile st = Some picked ->
         startsWith (type picked) (activeTab st ++ str "/") = true
         /\ forall pipeline now,
              handleAnalyzeCall pipeline now st
              = Some (generateAnalysisResults pipeline now (activeTab st)
                        (Dom.name (file picked)) (Some (file picked)) false).
Proof.
  intros png mp4. apply selected_file_fits_the_tab.
  repeat constructor.
Defined.

End AnalyzePageFacts.

(* ================================================================= *)
(** ** What the scores do not depend on *)

Module IndependenceFacts.
Import mlDetection analysisUtils GeneratorFacts WebcamFacts JsStringFacts.







(** When the classifier is not used (audio, any kind other than image and
    video, or [forceAuthentic]), the file enters the result through its
    size modulo 1000 only: under one name, two files whose sizes leave the
    same remainder get the same result, and the classifier's cache is left
    alone. *)
Theorem file_matters_by_size_modulo_1000 {Num : Number} (St : Type)
  (analyzeImageWithML : ImageData -> M St MLAnalysisResult)
  (now type fileName : jsstring) (file1 file2 : Dom.File)
  (forceAuthentic : bool) (st : St) :
  usesClassifier type (Some file1) forceAuthentic = false ->
  (Dom.size file1 mod 1000 = Dom.size file2 mod 1000)%N ->
  exists r,
    generateAnalysisResultsWith analyzeImageWithML
      now type fileName (Some file1) forceAuthentic st = (Returned r, st)
    /\ generateAnalysisResultsWith analyzeImageWithML
         now type fileName (Some file2) forceAuthentic st = (Returned r, st).
Proof.
  intros Hguard Hsize.
  assert (usesClassifier type (Some file2) forceAuthentic = false) as Hguard2.
  { exact Hguard. }
  unfold generateAnalysisResultsWith, bind.
  rewrite !classify_cases, Hguard, Hguard2.
  eexists. split; [reflexivity|].
  unfold assemble.
  rewrite (seedOf_pure fileName fileName (Some file1) (Some file2) eq_refl).
  - reflexivity.
  - simpl. rewrite Hsize. reflexivity.
Qed.

Lemma file_matters_by_size_modulo_1000_witness :
  exists r,
    generateAnalysisResultsWith (Num := RealNumber.real)
      (analyzeImageWithML Samples.offline)
      Samples.morning (str "audio") (str "voice.mp3")
      (Some {| Dom.name := str "voice.mp3"; Dom.size := 20480 |}) false None
    = (Returned r, None)
    /\ generateAnalysisResultsWith
         (analyzeImageWithML Samples.offline)
         Samples.morning (str "audio") (str "voice.mp3")
         (Some {| Dom.name := str "other.mp3"; Dom.size := 7340480 |})
         false None
       = (Returned r, None).
Proof.
  apply file_matters_by_size_modulo_1000; reflexivity.
Defined.

(** The explanation of a forced-authentic result.  For an image and for a
    video it is the text of a live webcam capture or recording; audio has
    no such text and keeps the ordinary explanation of an authentic audio
    file, and any other media kind keeps that of an authentic image. *)
Theorem forced_authentic_explanation {Num : Number} (St : Type)
  (analyzeImageWithML : ImageData -> M St MLAnalysisResult)
  (now type fileName : jsstring) (fileData : option Dom.File) (st : St) :
  exists r,
    generateAnalysisResultsWith analyzeImageWithML
      now type fileName fileData true st = (Returned r, st)
    /\ startsWith (detailedExplanation r)
         (if eqb type (str "video") then
            str "Live webcam recording verified as authentic."
          else if eqb type (str "audio") then
            str "This audio displays natural voice characteristics"
          else if eqb type (str "image") then
            str "Live webcam capture verified as authentic."
          else
            str "This image appears authentic based on our dataset")
       = true.
Proof.
  rewrite generate_forced_run. eexists. split; [reflexivity|].
  unfold assemble, verdictOf, explanationOf, specificMetricsOf.
  cbn [orb]. rewrite orb_true_r.
  destruct (eqb type (str "video")); [reflexivity|].
  destruct (eqb type (str "audio")); [reflexivity|].
  destruct (eqb type (str "image")); reflexivity.
Qed.

End IndependenceFacts.

(* ================================================================= *)
(** ** The verdict on an upload the model has scored *)

Module TopScoreFacts.
Import mlDetection analysisUtils RealNumber Ranges Samples.
Import AdapterFacts GeneratorFacts RealNumberFacts VerdictFacts.
Local Open Scope R_scope.

(** In exact real arithmetic: for an uploaded image or video whose name
    does not contain "webcam", when the model answers, the verdict is
    decided by the score of its first label alone, whatever the labels are:
    the upload is reported as a deepfake exactly when that score, taken as
    a percentage, exceeds 60.  The authenticity then lies within [20, 50];
    otherwise it lies within [60, 90]. *)
Theorem verdict_follows_top_score (pipeline : outcome Detector)
  (now type : jsstring) (file : Dom.File)
  (classifier classifier1 : Classifier) (first : Label)
  (others : list Label) :
  type = str "image" \/ type = str "video" ->
  includes (Dom.name file) (str "webcam") = false ->
  inference pipeline (FileData file) classifier
    = (Returned (Labels (first :: others)), classifier1) ->
  0 < score first ->
  exists r,
    generateAnalysisResults pipeline now type (Dom.name file) (Some file)
      false classifier = (Returned r, classifier1)
    /\ isDeepfake r = Rgtb (score first * 100) 60
    /\ (isDeepfake r = true -> 20 <= authenticity (baseMetrics r) <= 50)
    /\ (isDeepfake r = false -> 60 <= authenticity (baseMetrics r) <= 90).
Proof.
  intros Htype Hname Hrun Hscore.
  assert (includes (Dom.name file) (str "webcam-capture") = false) as Hcap.
  { apply not_true_is_false. intros H.
    apply includes_webcam_capture in H. congruence. }
  assert (isWebcamOf (FileData file) = false) as Hweb.
  { rewrite isWebcamOf_file, Hname, Hcap. reflexivity. }
  assert (usesClassifier type (Some file) false = true) as Hguard.
  { apply usesClassifier_spec. split; [eexists; reflexivity | auto]. }
  unfold generateAnalysisResults, generateAnalysisResultsWith, bind.
  rewrite classify_cases, Hguard, analyzeImageWithML_cases, Hrun.
  eexists. split; [reflexivity|].
  set (ml := processedResult (FileData file) (Labels (first :: others))).
  assert (Rtruthy (score first) = true) as Htruthy
    by (apply Rtruthy_spec; lra).
  assert (mlDetection.confidence ml = score first * 100
          /\ mlDetection.isDeepfake ml = Rgtb (score first * 100) 60)
    as [Hconf Hfake].
  { unfold ml, processedResult. cbn in Hweb |- *.
    rewrite Hweb, Htruthy. auto. }
  pose proof (assemble_verdict now type (Dom.name file) (Some file) false ml)
    as Hv.
  unfold verdictOf, overrideResults in Hv. rewrite Hcap in Hv.
  cbn [orb lit add sub mul sin gt real] in Hv.
  assert (Rgtb (mlDetection.confidence ml) 0 = true) as Hpos.
  { apply Rgtb_spec. rewrite Hconf. lra. }
  rewrite Hpos, Hfake in Hv.
  destruct (eqb type (str "video")), (Rgtb (score first * 100) 60);
    injection Hv as Ha _ Hd; rewrite Ha, Hd;
    (split; [reflexivity|]); split; intros Hcase;
    try discriminate;
    match goal with
    | |- context [Rtrigo_def.sin ?x] => destruct (SIN_bound x)
    end; lra.
Qed.

Lemma verdict_follows_top_score_witness :
  exists r,
    generateAnalysisResults (Returned confident) morning (str "image")
      (Dom.name photo) (Some photo) false None
    = (Returned r, Some confident)
    /\ isDeepfake r = Rgtb (9 / 10 * 100) 60
    /\ (isDeepfake r = true -> 20 <= authenticity (baseMetrics r) <= 50)
    /\ (isDeepfake r = false -> 60 <= authenticity (baseMetrics r) <= 90).
Proof.
  apply (verdict_follows_top_score (Returned confident) morning (str "image")
           photo None (Some confident)
           (Build_Label real (str "mask") (9 / 10)) []).
  - left. reflexivity.
  - reflexivity.
  - reflexivity.
  - cbn. lra.
Defined.

End TopScoreFacts.
